(** * Coffee-shop drinks API: a shallow embedding of [backend/src/api.py]

    The Flask route handlers of the drinks menu are embedded as functions
    from the request (decoded token payload, path parameter, JSON body) and
    the drinks table to a result and the table afterwards.  Python values
    coming out of [request.get_json()] are JSON values; Python exceptions
    (including the [HTTPException]s raised by [abort]) are one error channel,
    exactly as [except Exception] sees them. *)

From stdpp Require Import base gmap strings list sorting.

Open Scope string_scope.
Open Scope Z_scope.

#[local] Set Warnings "-register-all".

(** ** JSON values as Python objects *)

(** What [request.get_json()] can return.  [JNull] is Python's [None].
    Numbers are integers here: the handlers only ever ask whether a number
    is zero. *)
Inductive json : Type :=
  | JNull
  | JBool (b : bool)
  | JNum (z : Z)
  | JStr (s : string)
  | JArr (l : list json)
  | JObj (d : list (string * json)).

(** A Python [dict] keeps its items in insertion order; the handlers iterate
    over [.items()] and report the first offending key, so the order is part
    of the model. *)
Abbreviation dict := (list (string * json)).

Fixpoint dict_get (d : dict) (k : string) : option json :=
  match d with
  | [] => None
  | (k', v) :: d' => if String.eqb k k' then Some v else dict_get d' k
  end.

Definition dict_mem (k : string) (d : dict) : bool :=
  match dict_get d k with Some _ => true | None => false end.

(** [d[k] = v]: replaces the value in place, or appends a new item. *)
Fixpoint dict_set (d : dict) (k : string) (v : json) : dict :=
  match d with
  | [] => [(k, v)]
  | (k', v') :: d' =>
      if String.eqb k k' then (k', v) :: d' else (k', v') :: dict_set d' k v
  end.

(** [del d[k]] when present. *)
Fixpoint dict_del (d : dict) (k : string) : dict :=
  match d with
  | [] => []
  | (k', v') :: d' =>
      if String.eqb k k' then dict_del d' k else (k', v') :: dict_del d' k
  end.

(** Python truthiness, the test behind [if not v]. *)
Definition truthy (v : json) : bool :=
  match v with
  | JNull => false
  | JBool b => b
  | JNum z => negb (z =? 0)
  | JStr s => negb (String.eqb s "")
  | JArr l => match l with [] => false | _ => true end
  | JObj d => match d with [] => false | _ => true end
  end.

(** ** Exceptions and results *)

(** [Http (mkHTTPException c d)] is what [abort(c, d)] raises; werkzeug's
    [HTTPException] derives from [Exception].  [IntegrityError] is
    SQLAlchemy's; [StorageFailure] stands for any other exception of the
    persistence layer. *)
Record HTTPException : Type :=
  mkHTTPException { code : Z; description : string }.

Inductive exception : Type :=
  | Http (error : HTTPException)
  | IntegrityError
  | StorageFailure
  | AttributeError
  | TypeError
  | KeyError.

Inductive result (A : Type) : Type :=
  | Ok (a : A)
  | Raise (e : exception).
Arguments Ok {A} a.
Arguments Raise {A} e.

Definition bind {A B} (r : result A) (k : A -> result B) : result B :=
  match r with
  | Ok a => k a
  | Raise e => Raise e
  end.

Notation "x <- r ;; k" := (bind r (fun x => k))
  (at level 20, r at level 99, k at level 200, only parsing).
Notation "r ;;; k" := (bind r (fun _ => k))
  (at level 20, k at level 200, only parsing).

(** werkzeug's class descriptions, used when [abort] is given only a code. *)
Definition default_description (code : Z) : string :=
  if code =? 400 then
    "The browser (or proxy) sent a request that this server could not understand."
  else if code =? 404 then
    "The requested URL was not found on the server. If you entered the URL manually please check your spelling and try again."
  else if code =? 422 then
    "The request was well-formed but was unable to be followed due to semantic errors."
  else if code =? 500 then
    "The server encountered an internal error and was unable to complete your request. Either the server is overloaded or there is an error in the application."
  else "Unknown Error".

Definition abort {A} (code : Z) (description : option string) : result A :=
  Raise (Http (mkHTTPException code
                 (match description with
                  | Some d => d
                  | None => default_description code
                  end))).

(** [for x in xs: body], threading the loop's local state. *)
Fixpoint for_in {A S} (xs : list A) (body : A -> S -> result S) (s : S)
  : result S :=
  match xs with
  | [] => Ok s
  | x :: xs' => s' <- body x s ;; for_in xs' body s'
  end.

(** ** The Python operations the handlers apply to the body *)

(** [obj.get(k)]: only a dict has [.get]. *)
Definition py_get (obj : json) (k : string) : result json :=
  match obj with
  | JObj d => Ok (default JNull (dict_get d k))
  | _ => Raise AttributeError
  end.

(** [needle in hay] on strings is the substring test. *)
Fixpoint str_contains (needle hay : string) : bool :=
  String.prefix needle hay
  || match hay with
     | EmptyString => false
     | String _ rest => str_contains needle rest
     end.

(** ['k' == v] for a string literal on the left. *)
Definition str_eq_json (k : string) (v : json) : bool :=
  match v with
  | JStr s => String.eqb k s
  | _ => false
  end.

(** [k in obj]. *)
Definition py_contains (k : string) (obj : json) : result bool :=
  match obj with
  | JObj d => Ok (dict_mem k d)
  | JStr s => Ok (str_contains k s)
  | JArr l => Ok (existsb (str_eq_json k) l)
  | JNull | JBool _ | JNum _ => Raise TypeError
  end.

(** [obj[k]] with a string key. *)
Definition py_getitem (obj : json) (k : string) : result json :=
  match obj with
  | JObj d => match dict_get d k with
              | Some v => Ok v
              | None => Raise KeyError
              end
  | _ => Raise TypeError
  end.

(** [obj.items()]. *)
Definition py_items (obj : json) : result dict :=
  match obj with
  | JObj d => Ok d
  | _ => Raise AttributeError
  end.

(** [iter(obj)]: a dict yields its keys, a string its characters, a list its
    elements; nothing else is iterable. *)
Fixpoint chars (s : string) : list json :=
  match s with
  | EmptyString => []
  | String c rest => JStr (String c EmptyString) :: chars rest
  end.

Definition py_iter (obj : json) : result (list json) :=
  match obj with
  | JObj d => Ok (map (fun kv => JStr (fst kv)) d)
  | JStr s => Ok (chars s)
  | JArr l => Ok l
  | JNull | JBool _ | JNum _ => Raise TypeError
  end.

Definition hashable (v : json) : bool :=
  match v with
  | JArr _ | JObj _ => false
  | _ => true
  end.

(** [required.difference(other)]: [other] is iterated and every element is
    hashed and discarded from a copy of [required].  The result is a set;
    it is kept here in the order of [required] (Python leaves the iteration
    order of a set of strings unspecified). *)
Definition set_difference (required : list string) (other : json)
  : result (list string) :=
  elems <- py_iter other ;;
  if forallb hashable elems
  then Ok (List.filter (fun f => negb (existsb (str_eq_json f) elems)) required)
  else Raise TypeError.

(** [", ".join(xs)]. *)
Fixpoint join (sep : string) (xs : list string) : string :=
  match xs with
  | [] => ""
  | [x] => x
  | x :: xs' => x +:+ sep +:+ join sep xs'
  end.

(** ** The drinks table and the [Drink] model *)

(** The [recipe] column holds the text [json.dumps] produced.  A text is
    represented by the JSON value it denotes: [json.dumps] is injective on
    JSON values and [json.loads] inverts it. *)
Inductive text : Type := Dumped (j : json).

Definition json_dumps (j : json) : text := Dumped j.
Definition json_loads (s : text) : json := match s with Dumped j => j end.

(** One row per primary key: [title] is the unique string column, [recipe]
    the serialized text. *)
Record row : Type := Row { row_title : string; row_recipe : text }.

Record table : Type := Table { rows : gmap Z row; next_id : Z }.

(** The ORM object: [id] is [None] until the object has been inserted; the
    attributes hold whatever Python value was assigned to them. *)
Record Drink : Type :=
  mkDrink { id : option Z; title : json; recipe : text }.

Definition set_title (d : Drink) (v : json) : Drink :=
  {| id := id d; title := v; recipe := recipe d |}.
Definition set_recipe (d : Drink) (s : text) : Drink :=
  {| id := id d; title := title d; recipe := s |}.

Definition Drink_of_row (i : Z) (r : row) : Drink :=
  {| id := Some i; title := JStr (row_title r); recipe := row_recipe r |}.

(** Is [s] the title of a row other than [except]? *)
Definition title_taken (s : string) (except : option Z) (t : table) : bool :=
  existsb (fun kv : Z * row =>
             negb (bool_decide (Some (fst kv) = except))
             && String.eqb s (row_title (snd kv)))
          (map_to_list (rows t)).

(** A computation against the table: a result and the table afterwards.
    The table only changes when a commit succeeds. *)
Definition db (A : Type) : Type := table -> result A * table.

Definition ret {A} (a : A) : db A := fun t => (Ok a, t).
Definition lift {A} (r : result A) : db A := fun t => (r, t).
Definition bind_db {A B} (m : db A) (k : A -> db B) : db B :=
  fun t => match m t with
           | (Ok a, t') => k a t'
           | (Raise e, t') => (Raise e, t')
           end.

Notation "x <~ m ;; k" := (bind_db m (fun x => k))
  (at level 20, m at level 99, k at level 200, only parsing).

(** [Drink.query.order_by(Drink.id).all()]. *)
Definition id_le (a b : Z * row) : Prop := fst a <= fst b.
#[local] Instance id_le_dec : RelDecision id_le.
Proof. intros a b; unfold id_le; apply _. Defined.

Definition query_all (t : table) : list Drink :=
  map (fun kv => Drink_of_row (fst kv) (snd kv))
      (merge_sort id_le (map_to_list (rows t))).

(** [Drink.query.filter(Drink.id == drink_id).one_or_none()]. *)
Definition one_or_none (drink_id : Z) (t : table) : option Drink :=
  Drink_of_row drink_id <$> rows t !! drink_id.

(** Modelled from the spec: [Drink.insert] of database/models.py, which is
    not among the sources.  "create(title, recipe) -> Drink: fails with
    ConflictError if title already exists; fails with generic StorageError on
    any other persistence failure"; "id: integer, system-generated, unique";
    "title: string".  A title that is not a string does not fit the column and
    is a generic storage failure; a failed insert leaves the table as it
    was. *)
Definition Drink_insert (d : Drink) : db Drink := fun t =>
  match title d with
  | JStr s =>
      if title_taken s None t then (Raise IntegrityError, t)
      else
        let i := next_id t in
        (Ok {| id := Some i; title := JStr s; recipe := recipe d |},
         {| rows := <[i := Row s (recipe d)]> (rows t); next_id := i + 1 |})
  | _ => (Raise StorageFailure, t)
  end.

(** Modelled from the spec: [Drink.update] of database/models.py (the commit
    of the modified object).  "update(id, fields) -> Drink: ... applies only
    the fields supplied; fails with StorageError on persistence failure";
    "title: string, required, unique".  The row of the object's id is
    replaced by the object's attributes; nothing is written on failure. *)
Definition Drink_update (d : Drink) : db unit := fun t =>
  match id d, title d with
  | Some i, JStr s =>
      match rows t !! i with
      | None => (Raise StorageFailure, t)
      | Some _ =>
          if title_taken s (Some i) t then (Raise IntegrityError, t)
          else (Ok tt, {| rows := <[i := Row s (recipe d)]> (rows t);
                          next_id := next_id t |})
      end
  | _, _ => (Raise StorageFailure, t)
  end.

(** Modelled from the spec: [Drink.delete] of database/models.py.
    "delete(id) -> (): ... fails with StorageError on persistence failure". *)
Definition Drink_delete (d : Drink) : db unit := fun t =>
  match id d with
  | Some i =>
      match rows t !! i with
      | None => (Raise StorageFailure, t)
      | Some _ => (Ok tt, {| rows := delete i (rows t); next_id := next_id t |})
      end
  | None => (Raise StorageFailure, t)
  end.

Definition id_json (d : Drink) : json :=
  match id d with Some i => JNum i | None => JNull end.

(** Modelled from the spec: [Drink.long] of database/models.py.
    "long: {id, title, recipe: [{name, color, parts}]}", the recipe being
    "deserialized on read". *)
Definition long (d : Drink) : json :=
  JObj [("id", id_json d); ("title", title d);
        ("recipe", json_loads (recipe d))].

(** Modelled from the spec: [Drink.short] of database/models.py.
    "short: {id, title, recipe: [{name, color, parts: "pending"}]}": each
    element of the deserialized recipe is read at [name] and [color]. *)
Definition short_ingredient (r : json) : result json :=
  name <- py_getitem r "name" ;;
  color <- py_getitem r "color" ;;
  Ok (JObj [("name", name); ("color", color); ("parts", JStr "pending")]).

Fixpoint comprehension {A B} (f : A -> result B) (xs : list A)
  : result (list B) :=
  match xs with
  | [] => Ok []
  | x :: xs' => y <- f x ;; ys <- comprehension f xs' ;; Ok (y :: ys)
  end.

Definition short (d : Drink) : result json :=
  elems <- py_iter (json_loads (recipe d)) ;;
  short_recipe <- comprehension short_ingredient elems ;;
  Ok (JObj [("id", id_json d); ("title", title d);
            ("recipe", JArr short_recipe)]).

(** ** Responses *)

(** A response body is JSON built by [jsonify], or the HTML page werkzeug
    renders for an [HTTPException] no handler is registered for. *)
Inductive content : Type :=
  | JSON (j : json)
  | HTML (error : HTTPException).

Record response : Type := mkResponse { status : Z; body : content }.

Definition jsonify (d : dict) : response :=
  {| status := 200; body := JSON (JObj d) |}.

(** [return jsonify(d), code]. *)
Definition jsonify_with (d : dict) (code : Z) : response :=
  {| status := code; body := JSON (JObj d) |}.

(** ** Route handlers *)

(** [payload] is the decoded token [requires_auth] passes to the handler it
    wraps.  The guard itself lives in auth/auth.py; the functions below are
    the handlers it wraps, applied once the guard has let the request
    through.  No handler reads the payload. *)

(** [get_drinks], api.py lines 29-40. *)
Definition get_drinks : db response := fun t =>
  let recs := query_all t in
  (drinks <- comprehension short recs ;;
   if (Z.of_nat (length drinks) =? 0) then abort 404 None
   else Ok (jsonify [("success", JBool true); ("drinks", JArr drinks)]),
   t).

(** [get_drinks_detail], api.py lines 50-62. *)
Definition get_drinks_detail (payload : json) : db response := fun t =>
  let recs := query_all t in
  let drinks := map long recs in
  (if (Z.of_nat (length drinks) =? 0) then abort 404 None
   else Ok (jsonify [("success", JBool true); ("drinks", JArr drinks)]),
   t).

Definition required_recipe_fields : list string :=
  ["name"; "color"; "parts"].

(** The body of the loop over [recipe.items()], api.py lines 88-90 and
    133-135. *)
Definition item_check (kv : string * json) (_ : unit) : result unit :=
  if negb (truthy (snd kv))
  then abort 400 (Some ("Missing required recipe field: " +:+ fst kv))
  else Ok tt.

(** The checks both writers run on a recipe, api.py lines 84-90 and
    129-135. *)
Definition check_recipe (recipe : json) : result unit :=
  missing_recipe_fields <- set_difference required_recipe_fields recipe ;;
  (match missing_recipe_fields with
   | [] => Ok tt
   | _ => abort 400 (Some ("Missing required recipe field(s): "
                             +:+ join ", " missing_recipe_fields))
   end) ;;;
  items <- py_items recipe ;;
  for_in items item_check tt.

(** [create_drink] before the [try], api.py lines 76-90: the local
    [new_data] once every check has passed. *)
Definition create_drink_checks (body : json) : result dict :=
  new_data <-
    for_in ["title"; "recipe"]
      (fun field new_data =>
         v <- py_get body field ;;
         let new_data := dict_set new_data field v in
         if negb (truthy v)
         then abort 400 (Some ("Missing required field: " +:+ field))
         else Ok new_data)
      [] ;;
  recipe <- py_getitem (JObj new_data) "recipe" ;;
  check_recipe recipe ;;;
  Ok new_data.

(** The [try] block of [create_drink], api.py lines 93-101. *)
Definition create_drink_try (new_data : dict) : db response :=
  title <~ lift (py_getitem (JObj new_data) "title") ;;
  recipe <~ lift (py_getitem (JObj new_data) "recipe") ;;
  drink <~ Drink_insert
             {| id := None; title := title;
                recipe := json_dumps (JArr [recipe]) |} ;;
  ret (jsonify [("success", JBool true); ("drinks", JArr [long drink])]).

(** [create_drink], api.py lines 73-105. *)
Definition create_drink (payload : json) (body : json) : db response := fun t =>
  match create_drink_checks body with
  | Raise e => (Raise e, t)
  | Ok new_data =>
      match create_drink_try new_data t with
      | (Ok r, t') => (Ok r, t')
      | (Raise IntegrityError, t') =>
          (abort 400 (Some "Drink may already exist"), t')
      | (Raise _, t') => (abort 422 None, t')
      end
  end.

(** [update_drink] before the [try], api.py lines 121-135. *)
Definition update_drink_checks (body : json) : result unit :=
  for_in ["title"; "recipe"]
    (fun field _ =>
       present <- py_contains field body ;;
       if present then
         v <- py_get body field ;;
         if negb (truthy v)
         then abort 400 (Some ("A value is required for field: " +:+ field))
         else Ok tt
       else Ok tt)
    tt ;;;
  has_recipe <- py_contains "recipe" body ;;
  if has_recipe then
    recipe <- py_getitem body "recipe" ;;
    check_recipe recipe
  else Ok tt.

(** The [try] block of [update_drink], api.py lines 138-153. *)
Definition update_drink_try (drink_id : Z) (body : json) : db response :=
  fun t =>
  match one_or_none drink_id t with
  | None => (abort 404 None, t)
  | Some drink =>
      (drink <~ lift (has_title <- py_contains "title" body ;;
                      if has_title then
                        v <- py_getitem body "title" ;;
                        Ok (set_title drink v)
                      else Ok drink) ;;
       drink <~ lift (has_recipe <- py_contains "recipe" body ;;
                      if has_recipe then
                        v <- py_getitem body "recipe" ;;
                        Ok (set_recipe drink (json_dumps v))
                      else Ok drink) ;;
       _ <~ Drink_update drink ;;
       ret (jsonify [("success", JBool true);
                     ("drinks", JArr [long drink])])) t
  end.

(** [update_drink], api.py lines 118-155.  [abort(404)] is raised inside
    the [try], and [except Exception] catches it like any other
    exception. *)
Definition update_drink (payload : json) (drink_id : Z) (body : json)
  : db response :=
  fun t =>
  match update_drink_checks body with
  | Raise e => (Raise e, t)
  | Ok _ =>
      match update_drink_try drink_id body t with
      | (Ok r, t') => (Ok r, t')
      | (Raise _, t') => (abort 422 None, t')
      end
  end.

(** [delete_drink], api.py lines 166-181. *)
Definition delete_drink (payload : json) (drink_id : Z) : db response := fun t =>
  match one_or_none drink_id t with
  | None => (abort 404 None, t)
  | Some drink =>
      match Drink_delete drink t with
      | (Ok _, t') =>
          (Ok (jsonify [("success", JBool true); ("delete", JNum drink_id)]),
           t')
      | (Raise _, t') => (abort 422 None, t')
      end
  end.

(** ** Error handlers *)

(** [a or b] on strings. *)
Definition str_or (a b : string) : string :=
  if String.eqb a "" then b else a.

Definition error_envelope (code : Z) (message : string) : response :=
  jsonify_with [("success", JBool false); ("error", JNum code);
                ("message", JStr message)] code.

(** api.py lines 186-192. *)
Definition unprocessable (error : HTTPException) : response :=
  jsonify_with [("success", JBool false); ("error", JNum 422);
                ("message", JStr "unprocessable")] 422.

(** api.py lines 204-210. *)
Definition not_found (error : HTTPException) : response :=
  jsonify_with [("success", JBool false); ("error", JNum 404);
                ("message", JStr "resource not found")] 404.

(** api.py lines 215-221. *)
Definition bad_request (error : HTTPException) : response :=
  jsonify_with [("success", JBool false); ("error", JNum 400);
                ("message", JStr (str_or (description error) "bad request"))]
               400.

(** api.py lines 224-230. *)
Definition forbidden (error : HTTPException) : response :=
  jsonify_with [("success", JBool false); ("error", JNum 403);
                ("message", JStr (str_or (description error) "forbidden"))]
               403.

(** api.py lines 233-239. *)
Definition unauthorized (error : HTTPException) : response :=
  jsonify_with [("success", JBool false); ("error", JNum 401);
                ("message", JStr (str_or (description error) "unauthorized"))]
               401.

(** api.py lines 242-248. *)
Definition server_error (error : HTTPException) : response :=
  jsonify_with [("success", JBool false); ("error", JNum 500);
                ("message", JStr "internal server error")] 500.

(** The registry the [@app.errorhandler(code)] decorators fill. *)
Definition errorhandler (c : Z) : option (HTTPException -> response) :=
  if c =? 422 then Some unprocessable
  else if c =? 404 then Some not_found
  else if c =? 400 then Some bad_request
  else if c =? 403 then Some forbidden
  else if c =? 401 then Some unauthorized
  else if c =? 500 then Some server_error
  else None.

(** What Flask answers when a view raises: an [HTTPException] goes to the
    handler registered for its code, or is rendered as it is; any other
    exception becomes an [InternalServerError] and goes to the handler
    for 500. *)
Definition handle_exception (e : exception) : response :=
  match e with
  | Http error =>
      match errorhandler (code error) with
      | Some handler => handler error
      | None => {| status := code error; body := HTML error |}
      end
  | _ => server_error (mkHTTPException 500 (default_description 500))
  end.

(** One request: run the view, answer with its response or with the error
    handler's. *)
Definition dispatch (view : db response) (t : table) : response * table :=
  match view t with
  | (Ok r, t') => (r, t')
  | (Raise e, t') => (handle_exception e, t')
  end.

(** ** Vocabulary of the statements *)

(** The required recipe fields an ingredient object lacks. *)
Definition missing_fields (ing : dict) : list string :=
  List.filter (fun f => negb (dict_mem f ing)) required_recipe_fields.

(** The object [update_drink] commits for an object body: the attributes
    named in the body are overwritten, the others are the row's. *)
Definition patched (i : Z) (r : row) (d : dict) : Drink :=
  {| id := Some i;
     title := default (JStr (row_title r)) (dict_get d "title");
     recipe := from_option json_dumps (row_recipe r) (dict_get d "recipe") |}.

(** A menu for the examples: the one drink the database is seeded with. *)
Definition water : dict :=
  [("name", JStr "water"); ("color", JStr "blue"); ("parts", JNum 1)].

Definition menu : table :=
  {| rows := <[1 := Row "water" (json_dumps (JArr [JObj water]))]> ∅;
     next_id := 2 |}.

(** The four texts the checks put before the field names in a 400. *)
Definition validation_prefixes : list string :=
  ["Missing required field: "; "A value is required for field: ";
   "Missing required recipe field(s): "; "Missing required recipe field: "].

(** [f] is a key of the ingredient [ing] that the recipe checks reject: a
    required key that is not there, or a key whose value is falsy. *)
Definition offending_in_recipe (ing : dict) (f : string) : Prop :=
  (In f required_recipe_fields /\ dict_mem f ing = false)
  \/ exists v : json, In (f, v) ing /\ truthy v = false.

(** [f] is a field of the body [d] that the checks reject.  For POST a
    top-level field offends when [body.get(f)] is falsy, supplied or not;
    for PATCH ([supplied_only]) only when it is supplied and falsy. *)
Definition offending (supplied_only : bool) (d : dict) (f : string) : Prop :=
  (In f ["title"; "recipe"]
   /\ truthy (default JNull (dict_get d f)) = false
   /\ (supplied_only = true -> dict_mem f d = true))
  \/ exists ing : dict,
      dict_get d "recipe" = Some (JObj ing) /\ offending_in_recipe ing f.

(** A 400 envelope whose message is one of the checks' texts followed by
    fields of [d] that offend. *)
Definition rejects_naming (supplied_only : bool) (d : dict) (r : response)
  : Prop :=
  exists (prefix : string) (fs : list string),
    In prefix validation_prefixes /\ fs <> []
    /\ Forall (offending supplied_only d) fs
    /\ r = {| status := 400;
              body := JSON (JObj [("success", JBool false);
                                  ("error", JNum 400);
                                  ("message",
                                   JStr (prefix +:+ join ", " fs))]) |}.

(** A supplied falsy value, at the top level or inside the recipe
    object. *)
Definition supplies_falsy (d : dict) : Prop :=
  (exists (f : string) (v : json),
      In f ["title"; "recipe"] /\ dict_get d f = Some v /\ truthy v = false)
  \/ exists (ing : dict) (k : string) (v : json),
      dict_get d "recipe" = Some (JObj ing) /\ In (k, v) ing
      /\ truthy v = false.

Definition is_object (v : json) : bool :=
  match v with JObj _ => true | _ => false end.

(** The exceptions the error handlers of api.py turn into an envelope: an
    [HTTPException] of a code a handler is registered for among those the
    views raise, and anything that is not an [HTTPException]. *)
Definition expected (e : exception) : bool :=
  match e with
  | Http error =>
      (code error =? 400) || (code error =? 404) || (code error =? 422)
  | _ => true
  end.

Definition expected_result {A} (r : result A) : Prop :=
  match r with
  | Ok _ => True
  | Raise e => expected e = true
  end.

(** What a view may leave behind: a 200 response whose JSON object starts
    with [success: true], or an expected exception. *)
Definition view_outcome (r : result response) : Prop :=
  match r with
  | Ok resp =>
      status resp = 200
      /\ exists d : dict, body resp = JSON (JObj (("success", JBool true) :: d))
  | Raise e => expected e = true
  end.

(** The uniform shape of an answer: success with [success: true], or one of
    the error envelopes, its [error] field the HTTP status. *)
Definition is_envelope (r : response) : Prop :=
  (status r = 200
   /\ exists d : dict, body r = JSON (JObj (("success", JBool true) :: d)))
  \/ (In (status r) [400; 404; 422; 500]
      /\ exists message : string,
          body r = JSON (JObj [("success", JBool false);
                               ("error", JNum (status r));
                               ("message", JStr message)])).

(** * Properties *)

(** ** How the checks behave on a JSON object *)

Lemma items_all_truthy (items : dict) :
  forallb (fun kv => truthy (snd kv)) items = true ->
  for_in items item_check tt = Ok tt.
Proof.
  induction items as [|[k v] items IH]; cbn; [reflexivity|].
  intros [Hv Hrest]%andb_true_iff.
  unfold item_check at 1; cbn. rewrite Hv; cbn. auto.
Qed.

Lemma items_some_falsy (items : dict) :
  forallb (fun kv => truthy (snd kv)) items = false ->
  exists k v, In (k, v) items /\ truthy v = false
    /\ for_in items item_check tt
       = abort 400 (Some ("Missing required recipe field: " +:+ k)).
Proof.
  induction items as [|[k v] items IH]; cbn; [discriminate|].
  destruct (truthy v) eqn:Hv; cbn.
  - intros Hrest. destruct (IH Hrest) as (k' & v' & Hin & Hf & Hrun).
    exists k', v'. split; [now right|]. split; [exact Hf|].
    unfold item_check at 1; cbn. rewrite Hv; cbn. exact Hrun.
  - intros _. exists k, v. split; [now left|]. split; [exact Hv|].
    unfold item_check at 1; cbn. rewrite Hv; cbn. reflexivity.
Qed.

Lemma keys_hashable (d : dict) :
  forallb hashable (map (fun kv => JStr (fst kv)) d) = true.
Proof. induction d as [|[k v] d IH]; cbn; auto. Qed.

Lemma key_among_keys (f : string) (d : dict) :
  existsb (str_eq_json f) (map (fun kv => JStr (fst kv)) d) = dict_mem f d.
Proof.
  unfold dict_mem.
  induction d as [|[k v] d IH]; cbn; [reflexivity|].
  destruct (String.eqb f k); cbn; [reflexivity|exact IH].
Qed.

Lemma set_difference_object (ing : dict) :
  set_difference required_recipe_fields (JObj ing) = Ok (missing_fields ing).
Proof.
  unfold set_difference, missing_fields; cbn [py_iter bind].
  rewrite keys_hashable.
  f_equal. apply filter_ext. intros f. now rewrite key_among_keys.
Qed.

Lemma check_recipe_object (ing : dict) :
  check_recipe (JObj ing)
  = match missing_fields ing with
    | [] => for_in ing item_check tt
    | fs => abort 400 (Some ("Missing required recipe field(s): "
                               +:+ join ", " fs))
    end.
Proof.
  unfold check_recipe. rewrite set_difference_object; cbn [bind].
  destruct (missing_fields ing); reflexivity.
Qed.

Lemma missing_fields_nil (ing : dict) :
  missing_fields ing = [] <->
  dict_mem "name" ing = true /\ dict_mem "color" ing = true
  /\ dict_mem "parts" ing = true.
Proof.
  unfold missing_fields, required_recipe_fields; cbn.
  destruct (dict_mem "name" ing), (dict_mem "color" ing),
    (dict_mem "parts" ing); cbn; intuition congruence.
Qed.

Lemma missing_fields_missing (ing : dict) (k : string) :
  In k (missing_fields ing) ->
  In k required_recipe_fields /\ dict_mem k ing = false.
Proof.
  unfold missing_fields. rewrite filter_In, negb_true_iff. tauto.
Qed.

Lemma create_drink_checks_object (d : dict) :
  create_drink_checks (JObj d)
  = let title := default JNull (dict_get d "title") in
    let recipe := default JNull (dict_get d "recipe") in
    if negb (truthy title)
    then abort 400 (Some "Missing required field: title")
    else if negb (truthy recipe)
    then abort 400 (Some "Missing required field: recipe")
    else match check_recipe recipe with
         | Ok _ => Ok [("title", title); ("recipe", recipe)]
         | Raise e => Raise e
         end.
Proof.
  unfold create_drink_checks; cbn.
  destruct (truthy (default JNull (dict_get d "title"))); cbn;
    [|reflexivity].
  destruct (truthy (default JNull (dict_get d "recipe"))); cbn;
    [|reflexivity].
  destruct (check_recipe _) as [[]|]; reflexivity.
Qed.

Lemma update_drink_checks_object (d : dict) :
  update_drink_checks (JObj d)
  = let title := default JNull (dict_get d "title") in
    let recipe := default JNull (dict_get d "recipe") in
    if dict_mem "title" d && negb (truthy title)
    then abort 400 (Some "A value is required for field: title")
    else if dict_mem "recipe" d && negb (truthy recipe)
    then abort 400 (Some "A value is required for field: recipe")
    else if dict_mem "recipe" d then check_recipe recipe else Ok tt.
Proof.
  unfold update_drink_checks; cbn. unfold dict_mem.
  destruct (dict_get d "title") as [vt|]; cbn.
  - destruct (truthy vt); cbn; [|reflexivity].
    destruct (dict_get d "recipe") as [vr|]; cbn; [|reflexivity].
    destruct (truthy vr); reflexivity.
  - destruct (dict_get d "recipe") as [vr|]; cbn; [|reflexivity].
    destruct (truthy vr); reflexivity.
Qed.

Lemma truthy_nonempty_string (s : string) : s <> "" -> truthy (JStr s) = true.
Proof.
  intros Hs; cbn. destruct (String.eqb_spec s ""); [contradiction|reflexivity].
Qed.

Lemma truthy_object_with_key (k : string) (ing : dict) :
  dict_mem k ing = true -> truthy (JObj ing) = true.
Proof. destruct ing; [discriminate|reflexivity]. Qed.

Lemma check_recipe_valid (ing : dict) :
  dict_mem "name" ing = true -> dict_mem "color" ing = true ->
  dict_mem "parts" ing = true ->
  forallb (fun kv => truthy (snd kv)) ing = true ->
  check_recipe (JObj ing) = Ok tt.
Proof.
  intros Hn Hc Hp Hall. rewrite check_recipe_object.
  replace (missing_fields ing) with (@nil string)
    by (symmetry; apply missing_fields_nil; auto).
  now apply items_all_truthy.
Qed.

(** ** POST stores the ingredient in a one-element list (C3) *)

(** C3: a valid POST /drinks payload (a non-empty title not yet in the
    table, the recipe one ingredient object holding name, color and parts,
    every value truthy) stores the ingredient wrapped in a one-element list
    and answers 200 with [{success: true, drinks: [d]}], [d] being the long
    form of the new drink, its recipe that one-element list. *)
Theorem create_drink_wraps_recipe
  (payload : json) (d ing : dict) (s : string) (t : table) :
  dict_get d "title" = Some (JStr s) -> s <> "" ->
  dict_get d "recipe" = Some (JObj ing) ->
  dict_mem "name" ing = true -> dict_mem "color" ing = true ->
  dict_mem "parts" ing = true ->
  forallb (fun kv => truthy (snd kv)) ing = true ->
  title_taken s None t = false ->
  dispatch (create_drink payload (JObj d)) t
  = ({| status := 200;
        body := JSON (JObj [("success", JBool true);
                            ("drinks",
                             JArr [JObj [("id", JNum (next_id t));
                                         ("title", JStr s);
                                         ("recipe", JArr [JObj ing])]])]) |},
     {| rows := <[next_id t := Row s (json_dumps (JArr [JObj ing]))]> (rows t);
        next_id := next_id t + 1 |}).
Proof.
  intros Ht Hs Hr Hn Hc Hp Hall Hfree.
  unfold dispatch, create_drink.
  rewrite create_drink_checks_object, Ht, Hr; cbn [default from_option Datatypes.id].
  cbv zeta.
  rewrite (truthy_nonempty_string _ Hs), (truthy_object_with_key _ _ Hn).
  cbn [negb]. rewrite (check_recipe_valid _ Hn Hc Hp Hall).
  unfold create_drink_try, bind_db, lift, Drink_insert; cbn.
  rewrite Hfree. reflexivity.
Qed.

Lemma create_drink_wraps_recipe_witness :
  dispatch
    (create_drink JNull
       (JObj [("title", JStr "Water");
              ("recipe", JObj [("name", JStr "water"); ("color", JStr "blue");
                               ("parts", JNum 1)])]))
    (Table ∅ 1)
  = ({| status := 200;
        body := JSON (JObj [("success", JBool true);
                            ("drinks",
                             JArr [JObj [("id", JNum 1);
                                         ("title", JStr "Water");
                                         ("recipe",
                                          JArr [JObj [("name", JStr "water");
                                                      ("color", JStr "blue");
                                                      ("parts", JNum 1)]])]])]) |},
     {| rows := <[1 := Row "Water"
                        (json_dumps
                           (JArr [JObj [("name", JStr "water");
                                        ("color", JStr "blue");
                                        ("parts", JNum 1)]]))]> ∅;
        next_id := 2 |}).
Proof.
  apply (create_drink_wraps_recipe JNull _
           [("name", JStr "water"); ("color", JStr "blue"); ("parts", JNum 1)]
           "Water" (Table ∅ 1)); try reflexivity.
  discriminate.
Defined.

(** ** Listing an empty table (C2) *)

(** C2: with no row in the table, GET /drinks and GET /drinks-detail both
    answer HTTP 404 with the not-found envelope (never a 200 with an empty
    [drinks] array), and the table stays empty. *)
Theorem listing_empty_table_is_404 (payload : json) (n : Z) :
  dispatch get_drinks (Table ∅ n)
    = ({| status := 404;
          body := JSON (JObj [("success", JBool false); ("error", JNum 404);
                              ("message", JStr "resource not found")]) |},
       Table ∅ n)
  /\ dispatch (get_drinks_detail payload) (Table ∅ n)
    = ({| status := 404;
          body := JSON (JObj [("success", JBool false); ("error", JNum 404);
                              ("message", JStr "resource not found")]) |},
       Table ∅ n).
Proof. split; reflexivity. Qed.

(** ** DELETE (C7) *)

Lemma one_or_none_None (i : Z) (t : table) :
  rows t !! i = None -> one_or_none i t = None.
Proof. unfold one_or_none. intros ->. reflexivity. Qed.

Lemma one_or_none_Some (i : Z) (t : table) (r : row) :
  rows t !! i = Some r -> one_or_none i t = Some (Drink_of_row i r).
Proof. unfold one_or_none. intros ->. reflexivity. Qed.

(** C7: DELETE /drinks/{id} of an absent id answers 404 and leaves the table
    as it was; of a stored id it removes that row and answers
    [{success: true, delete: id}], after which the id is absent and the same
    DELETE again answers 404 and changes nothing. *)
Theorem delete_drink_spec (payload : json) (i : Z) (t : table) :
  match rows t !! i with
  | None =>
      dispatch (delete_drink payload i) t
      = (error_envelope 404 "resource not found", t)
  | Some _ =>
      let t' := {| rows := delete i (rows t); next_id := next_id t |} in
      dispatch (delete_drink payload i) t
      = ({| status := 200;
            body := JSON (JObj [("success", JBool true);
                                ("delete", JNum i)]) |}, t')
      /\ rows t' !! i = None
      /\ dispatch (delete_drink payload i) t'
         = (error_envelope 404 "resource not found", t')
  end.
Proof.
  destruct (rows t !! i) as [r|] eqn:Hi.
  - assert (Hgone : delete i (rows t) !! i = None) by apply lookup_delete_eq.
    cbn zeta. split; [|split].
    + unfold dispatch, delete_drink.
      rewrite (one_or_none_Some _ _ _ Hi).
      unfold Drink_delete; cbn. rewrite Hi. reflexivity.
    + exact Hgone.
    + unfold dispatch, delete_drink.
      rewrite one_or_none_None by exact Hgone. reflexivity.
  - unfold dispatch, delete_drink.
    rewrite (one_or_none_None _ _ Hi). reflexivity.
Qed.

(** ** Bodies that are not objects (C10) *)

(** C10, as the code has it: with a body that is not a JSON object ([null]
    included) POST /drinks raises on [body.get] and answers with the 500
    envelope, not a 400.  PATCH /drinks/{id} does the same when ['title' in
    body] raises (the body is [null], a boolean or a number) or when the
    body is a string or a list in which [title] or [recipe] is found (then
    [body.get] raises); the table is unchanged.  A string or list in which
    neither is found raises nothing, and the PATCH runs exactly as with the
    empty object. *)
Theorem non_object_body
  (payload body : json) (i : Z) (t : table) :
  is_object body = false ->
  dispatch (create_drink payload body) t
    = ({| status := 500;
          body := JSON (JObj [("success", JBool false); ("error", JNum 500);
                              ("message", JStr "internal server error")]) |},
       t)
  /\ match py_contains "title" body, py_contains "recipe" body with
     | Ok false, Ok false =>
         update_drink payload i body t = update_drink payload i (JObj []) t
     | _, _ =>
         dispatch (update_drink payload i body) t
         = ({| status := 500;
               body := JSON (JObj [("success", JBool false);
                                   ("error", JNum 500);
                                   ("message",
                                    JStr "internal server error")]) |},
            t)
     end.
Proof.
  intros Hbody.
  split; [destruct body; try discriminate; reflexivity|].
  destruct body as [|b|z|s|l|d]; try discriminate; try reflexivity.
  - cbn [py_contains].
    destruct (str_contains "title" s) eqn:Ht,
      (str_contains "recipe" s) eqn:Hr;
      unfold dispatch, update_drink, update_drink_checks, update_drink_try;
      cbn; rewrite ?Ht, ?Hr; cbn; rewrite ?Ht, ?Hr; reflexivity.
  - cbn [py_contains].
    destruct (existsb (str_eq_json "title") l) eqn:Ht,
      (existsb (str_eq_json "recipe") l) eqn:Hr;
      unfold dispatch, update_drink, update_drink_checks, update_drink_try;
      cbn; rewrite ?Ht, ?Hr; cbn; rewrite ?Ht, ?Hr; reflexivity.
Qed.

Lemma non_object_body_witness :
  dispatch (create_drink JNull JNull) menu
    = ({| status := 500;
          body := JSON (JObj [("success", JBool false); ("error", JNum 500);
                              ("message", JStr "internal server error")]) |},
       menu)
  /\ dispatch (update_drink JNull 1 JNull) menu
     = ({| status := 500;
           body := JSON (JObj [("success", JBool false); ("error", JNum 500);
                               ("message", JStr "internal server error")]) |},
        menu).
Proof.
  apply (non_object_body JNull JNull 1 menu). reflexivity.
Defined.

(** C10, where the claim as worded fails: a PATCH whose body is the JSON
    string ["abc"] or the empty list is not an object, yet nothing raises
    and the stored drink comes back with a 200. *)
Lemma non_object_patch_is_accepted :
  dispatch (update_drink JNull 1 (JStr "abc")) menu
  = ({| status := 200;
        body := JSON (JObj [("success", JBool true);
                            ("drinks",
                             JArr [JObj [("id", JNum 1);
                                         ("title", JStr "water");
                                         ("recipe", JArr [JObj water])]])])
     |}, menu)
  /\ dispatch (update_drink JNull 1 (JArr [])) menu
  = ({| status := 200;
        body := JSON (JObj [("success", JBool true);
                            ("drinks",
                             JArr [JObj [("id", JNum 1);
                                         ("title", JStr "water");
                                         ("recipe", JArr [JObj water])]])])
     |}, menu).
Proof. split; reflexivity. Qed.

(** ** The registered error handlers (C8) *)

(** C8: a code has a registered error handler exactly when it is one of 400,
    401, 403, 404, 422, 500, and the handler registered for code [c] answers
    with HTTP status [c] and the body
    [{success: false, error: c, message: <string>}]. *)
Theorem error_handlers_envelope (c : Z) (error : HTTPException) :
  match errorhandler c with
  | Some handler =>
      (exists message : string,
          handler error
          = {| status := c;
               body := JSON (JObj [("success", JBool false);
                                   ("error", JNum c);
                                   ("message", JStr message)]) |})
      /\ In c [400; 401; 403; 404; 422; 500]
  | None => ~ In c [400; 401; 403; 404; 422; 500]
  end.
Proof.
  unfold errorhandler.
  repeat match goal with
         | |- context [?a =? ?b] =>
             destruct (Z.eqb_spec a b) as [->|?]
         end.
  all: try (split; [eexists; reflexivity | cbn; tauto]).
  cbn; intuition congruence.
Qed.

(** ** The same title twice (C5) *)

Lemma title_taken_after_insert (s : string) (rc : text) (i n : Z)
  (m : gmap Z row) :
  title_taken s None {| rows := <[i := Row s rc]> m; next_id := n |} = true.
Proof.
  unfold title_taken; cbn [rows].
  apply existsb_exists. exists (i, Row s rc). split.
  - apply list_elem_of_In, elem_of_map_to_list, lookup_insert_eq.
  - cbn. now rewrite String.eqb_refl.
Qed.

(** What a successful POST did: the body was an object with a non-empty
    string title that was free, and one row was added under the next id. *)
Lemma create_drink_success (payload body : json) (t t1 : table)
  (r : response) :
  create_drink payload body t = (Ok r, t1) ->
  exists (s : string) (rc : text),
    py_get body "title" = Ok (JStr s) /\ s <> ""
    /\ title_taken s None t = false
    /\ t1 = {| rows := <[next_id t := Row s rc]> (rows t);
               next_id := next_id t + 1 |}.
Proof.
  unfold create_drink.
  destruct body as [| | | |l|d]; try (cbn; discriminate).
  rewrite create_drink_checks_object; cbv zeta.
  remember (default JNull (dict_get d "title")) as vt eqn:Hvt.
  remember (default JNull (dict_get d "recipe")) as vr eqn:Hvr.
  destruct (truthy vt) eqn:Htt; cbn [negb]; [|cbn; discriminate].
  destruct (truthy vr) eqn:Htr; cbn [negb]; [|cbn; discriminate].
  destruct (check_recipe vr) as [[]|e]; [|discriminate].
  unfold create_drink_try, bind_db, lift, Drink_insert; cbn.
  destruct vt as [| | |s| |]; try (cbn; discriminate).
  destruct (title_taken s None t) eqn:Hfree; [cbn; discriminate|].
  intros [= <- <-]. exists s, (json_dumps (JArr [vr])).
  repeat split; auto.
  - now rewrite <- Hvt.
  - intros ->. discriminate.
Qed.

(** C5: when a POST /drinks has created a drink, a further POST with the
    same title (its recipe given as an ingredient object, valid or not) is
    answered 400, the table stays exactly as the first request left it, and
    the first drink's row is still there; when the second payload passes
    the checks the message is the one of the duplicate. *)
Theorem duplicate_title_is_400
  (p1 p2 b1 : json) (d2 ing2 : dict) (s : string) (r1 : response)
  (t t1 : table) :
  create_drink p1 b1 t = (Ok r1, t1) ->
  py_get b1 "title" = Ok (JStr s) ->
  dict_get d2 "title" = Some (JStr s) ->
  dict_get d2 "recipe" = Some (JObj ing2) ->
  (exists rc, rows t1 !! next_id t = Some (Row s rc))
  /\ exists message : string,
      dispatch (create_drink p2 (JObj d2)) t1
      = ({| status := 400;
            body := JSON (JObj [("success", JBool false); ("error", JNum 400);
                                ("message", JStr message)]) |}, t1)
      /\ (forall nd, create_drink_checks (JObj d2) = Ok nd ->
          message = "Drink may already exist").
Proof.
  intros Hfirst Ht1 Ht2 Hr2.
  destruct (create_drink_success _ _ _ _ _ Hfirst)
    as (s' & rc & Ht1' & Hs & _ & ->).
  rewrite Ht1 in Ht1'. injection Ht1' as <-.
  split.
  { exists rc. cbn [rows]. apply lookup_insert_eq. }
  unfold dispatch, create_drink.
  rewrite create_drink_checks_object, Ht2, Hr2.
  cbn [default from_option Datatypes.id]; cbv zeta.
  rewrite (truthy_nonempty_string _ Hs); cbn [negb].
  destruct (truthy (JObj ing2)) eqn:Hing; cbn [negb].
  2:{ eexists; split; [reflexivity|discriminate]. }
  destruct (check_recipe (JObj ing2)) as [[]|e] eqn:Hck.
  - unfold create_drink_try, bind_db, lift, Drink_insert; cbn.
    rewrite title_taken_after_insert.
    eexists; split; [reflexivity|reflexivity].
  - rewrite check_recipe_object in Hck.
    destruct (missing_fields ing2) as [|f fs].
    + destruct (forallb (fun kv => truthy (snd kv)) ing2) eqn:Hall.
      * rewrite (items_all_truthy _ Hall) in Hck. discriminate.
      * destruct (items_some_falsy _ Hall) as (k & v & _ & _ & Hrun).
        rewrite Hrun in Hck. injection Hck as <-.
        eexists; split; [reflexivity|discriminate].
    + injection Hck as <-.
      eexists; split; [reflexivity|discriminate].
Qed.

Lemma duplicate_title_is_400_witness :
  (exists rc, rows (Table (<[1 := Row "Water"
                 (json_dumps (JArr [JObj [("name", JStr "water");
                                          ("color", JStr "blue");
                                          ("parts", JNum 1)]]))]> ∅) 2)
                !! next_id (Table ∅ 1) = Some (Row "Water" rc))
  /\ exists message : string,
      dispatch
        (create_drink JNull
           (JObj [("title", JStr "Water");
                  ("recipe", JObj [("name", JStr "tap"); ("color", JStr "grey");
                                   ("parts", JNum 2)])]))
        (Table (<[1 := Row "Water"
                 (json_dumps (JArr [JObj [("name", JStr "water");
                                          ("color", JStr "blue");
                                          ("parts", JNum 1)]]))]> ∅) 2)
      = ({| status := 400;
            body := JSON (JObj [("success", JBool false); ("error", JNum 400);
                                ("message", JStr message)]) |},
         Table (<[1 := Row "Water"
                 (json_dumps (JArr [JObj [("name", JStr "water");
                                          ("color", JStr "blue");
                                          ("parts", JNum 1)]]))]> ∅) 2)
      /\ (forall nd,
             create_drink_checks
               (JObj [("title", JStr "Water");
                      ("recipe", JObj [("name", JStr "tap");
                                       ("color", JStr "grey");
                                       ("parts", JNum 2)])]) = Ok nd ->
          message = "Drink may already exist").
Proof.
  apply (duplicate_title_is_400 JNull JNull
           (JObj [("title", JStr "Water");
                  ("recipe", JObj [("name", JStr "water");
                                   ("color", JStr "blue");
                                   ("parts", JNum 1)])])
           _ [("name", JStr "tap"); ("color", JStr "grey"); ("parts", JNum 2)]
           "Water"
           (jsonify [("success", JBool true);
                     ("drinks",
                      JArr [JObj [("id", JNum 1); ("title", JStr "Water");
                                  ("recipe",
                                   JArr [JObj [("name", JStr "water");
                                               ("color", JStr "blue");
                                               ("parts", JNum 1)]])]])])
           (Table ∅ 1)); reflexivity.
Defined.

(** ** PATCH on a JSON object *)

Lemma Drink_update_ok (dk : Drink) (t t' : table) (u : unit) :
  Drink_update dk t = (Ok u, t') ->
  exists (i : Z) (s : string),
    id dk = Some i /\ title dk = JStr s /\ is_Some (rows t !! i)
    /\ t' = {| rows := <[i := Row s (recipe dk)]> (rows t);
               next_id := next_id t |}.
Proof.
  unfold Drink_update.
  destruct (id dk) as [i|]; [|destruct (title dk); discriminate].
  destruct (title dk) as [| | |s| |]; try discriminate.
  destruct (rows t !! i) eqn:Hi; [|discriminate].
  destruct (title_taken s (Some i) t); [discriminate|].
  intros [= <-]. exists i, s. rewrite Hi. eauto.
Qed.

Lemma Drink_update_raise (dk : Drink) (t t' : table) (e : exception) :
  Drink_update dk t = (Raise e, t') -> t' = t.
Proof.
  unfold Drink_update.
  destruct (id dk) as [i|]; [|destruct (title dk); now intros [= _ <-]].
  destruct (title dk) as [| | |s| |]; try now intros [= _ <-].
  destruct (rows t !! i); [|now intros [= _ <-]].
  destruct (title_taken s (Some i) t); [now intros [= _ <-]|discriminate].
Qed.

Lemma update_drink_try_object (i : Z) (d : dict) (t : table) (r : row) :
  rows t !! i = Some r ->
  update_drink_try i (JObj d) t
  = match Drink_update (patched i r d) t with
    | (Ok _, t') =>
        (Ok (jsonify [("success", JBool true);
                      ("drinks", JArr [long (patched i r d)])]), t')
    | (Raise e, t') => (Raise e, t')
    end.
Proof.
  intros Hi. unfold update_drink_try.
  rewrite (one_or_none_Some _ _ _ Hi).
  unfold bind_db, lift, ret, patched, py_contains, py_getitem, dict_mem.
  destruct (dict_get d "title") as [vt|], (dict_get d "recipe") as [vr|];
    unfold set_recipe, set_title, Drink_of_row;
    cbn [bind default from_option Datatypes.id id title recipe];
    match goal with
    | |- context [Drink_update ?dk t] =>
        destruct (Drink_update dk t) as [[u|e] t']
    end; reflexivity.
Qed.

Lemma update_drink_object (payload : json) (i : Z) (d : dict) (t : table)
  (r : row) :
  rows t !! i = Some r ->
  update_drink payload i (JObj d) t
  = match update_drink_checks (JObj d) with
    | Raise e => (Raise e, t)
    | Ok _ =>
        match Drink_update (patched i r d) t with
        | (Ok _, t') =>
            (Ok (jsonify [("success", JBool true);
                          ("drinks", JArr [long (patched i r d)])]), t')
        | (Raise _, t') => (abort 422 None, t')
        end
    end.
Proof.
  intros Hi. unfold update_drink.
  destruct (update_drink_checks (JObj d)); [|reflexivity].
  rewrite (update_drink_try_object _ _ _ _ Hi).
  destruct (Drink_update (patched i r d) t) as [[u|e] t']; reflexivity.
Qed.

(** Whatever the body, a PATCH leaves the table alone or rewrites the one
    row it addresses. *)
Lemma update_drink_table (payload : json) (i : Z) (d : dict) (t : table)
  (r : row) :
  rows t !! i = Some r ->
  snd (update_drink payload i (JObj d) t) = t
  \/ exists s : string,
      title (patched i r d) = JStr s
      /\ update_drink_checks (JObj d) = Ok tt
      /\ update_drink payload i (JObj d) t
         = (Ok (jsonify [("success", JBool true);
                         ("drinks", JArr [long (patched i r d)])]),
            {| rows := <[i := Row s (recipe (patched i r d))]> (rows t);
               next_id := next_id t |}).
Proof.
  intros Hi. rewrite (update_drink_object _ _ _ _ _ Hi).
  destruct (update_drink_checks (JObj d)) as [[]|e]; [|now left].
  destruct (Drink_update (patched i r d) t) as [[u|e] t'] eqn:Hup.
  - destruct (Drink_update_ok _ _ _ _ Hup) as (i' & s & Hid & Ht & _ & ->).
    cbn in Hid. injection Hid as <-.
    right. exists s. auto.
  - left. cbn. eapply Drink_update_raise; eauto.
Qed.

(** ** PATCH replaces the supplied fields only (C6) *)

(** C6: a PATCH of a stored drink with an object body only touches the row
    it addresses, and in that row only the fields the body supplies: with
    [title] omitted the stored title is the one before (likewise [recipe]),
    whatever the outcome; when the handler succeeds, a supplied title and a
    supplied recipe are the ones stored; and a supplied empty-string title
    is answered 400 with the table unchanged. *)
Theorem update_drink_frame
  (payload : json) (i : Z) (d : dict) (t : table) (r : row) :
  rows t !! i = Some r ->
  (exists r' : row,
      rows (snd (dispatch (update_drink payload i (JObj d)) t)) !! i = Some r'
      /\ (dict_get d "title" = None -> row_title r' = row_title r)
      /\ (dict_get d "recipe" = None -> row_recipe r' = row_recipe r)
      /\ (forall resp, fst (update_drink payload i (JObj d) t) = Ok resp ->
          (forall v, dict_get d "title" = Some v -> v = JStr (row_title r'))
          /\ (forall v, dict_get d "recipe" = Some v ->
              row_recipe r' = json_dumps v)))
  /\ (forall j : Z, j <> i ->
      rows (snd (dispatch (update_drink payload i (JObj d)) t)) !! j
      = rows t !! j)
  /\ (dict_get d "title" = Some (JStr "") ->
      dispatch (update_drink payload i (JObj d)) t
      = ({| status := 400;
            body := JSON (JObj [("success", JBool false); ("error", JNum 400);
                                ("message",
                                 JStr "A value is required for field: title")])
         |}, t)).
Proof.
  intros Hi.
  assert (Hsnd : snd (dispatch (update_drink payload i (JObj d)) t)
                 = snd (update_drink payload i (JObj d) t)).
  { unfold dispatch.
    destruct (update_drink payload i (JObj d) t) as [[?|?] ?]; reflexivity. }
  rewrite Hsnd. split; [|split].
  - destruct (update_drink_table payload i d t r Hi)
      as [Hsame|(s & Hs & _ & Hrun)].
    + exists r. rewrite Hsame. split; [exact Hi|].
      split; [reflexivity|]. split; [reflexivity|].
      intros resp Hok.
      rewrite (update_drink_object _ _ _ _ _ Hi) in Hsame, Hok.
      destruct (update_drink_checks (JObj d)) as [[]|e]; [|discriminate].
      destruct (Drink_update (patched i r d) t) as [[u|e] t'] eqn:Hup;
        [|discriminate].
      destruct (Drink_update_ok _ _ _ _ Hup) as (i' & s & Hid & Ht & _ & ->).
      cbn in Hid. injection Hid as <-. cbn in Hsame.
      assert (Hrow : rows t !! i = Some (Row s (recipe (patched i r d)))).
      { rewrite <- Hsame at 1. cbn. apply lookup_insert_eq. }
      rewrite Hi in Hrow. injection Hrow as ->.
      unfold patched in Ht; cbn in Ht |- *. split.
      * intros v Hv. rewrite Hv in Ht. exact Ht.
      * intros v Hv. rewrite Hv. reflexivity.
    + rewrite Hrun; cbn [snd fst rows].
      exists (Row s (recipe (patched i r d))).
      split; [apply lookup_insert_eq|].
      unfold patched in Hs |- *; cbn in Hs |- *.
      split; [|split; [|split]].
      * intros Hnone. rewrite Hnone in Hs. cbn in Hs. congruence.
      * intros Hnone. rewrite Hnone. reflexivity.
      * intros v Hv. rewrite Hv in Hs. exact Hs.
      * intros v Hv. rewrite Hv. reflexivity.
  - intros j Hj.
    destruct (update_drink_table payload i d t r Hi)
      as [Hsame|(s & _ & _ & Hrun)].
    + now rewrite Hsame.
    + rewrite Hrun; cbn [snd rows]. now apply lookup_insert_ne.
  - intros Hempty. unfold dispatch.
    rewrite (update_drink_object _ _ _ _ _ Hi), update_drink_checks_object.
    unfold dict_mem. rewrite Hempty. reflexivity.
Qed.

Lemma update_drink_frame_witness :
  dispatch (update_drink JNull 1 (JObj [("title", JStr "")])) menu
  = ({| status := 400;
        body := JSON (JObj [("success", JBool false); ("error", JNum 400);
                            ("message",
                             JStr "A value is required for field: title")])
     |}, menu).
Proof.
  apply (update_drink_frame JNull 1 [("title", JStr "")] menu
           (Row "water" (json_dumps (JArr [JObj water]))));
    reflexivity.
Defined.

(** ** PATCH stores the recipe as given (C9) *)

Lemma no_char_is_a_field (f : string) (s : string) :
  In f required_recipe_fields ->
  existsb (str_eq_json f) (chars s) = false.
Proof.
  intros Hf. induction s as [|c s IH]; cbn; [reflexivity|].
  rewrite IH, orb_false_r.
  destruct Hf as [<-|[<-|[<-|[]]]]; cbn; apply andb_false_r.
Qed.

(** Only an object gets through the recipe checks without an error. *)
Lemma check_recipe_ok_object (v : json) (u : unit) :
  check_recipe v = Ok u -> exists ing : dict, v = JObj ing.
Proof.
  destruct v as [| | |s|l|ing]; try discriminate.
  - unfold check_recipe, set_difference; cbn [py_iter bind].
    destruct (forallb hashable (chars s)); [|discriminate].
    unfold required_recipe_fields at 1; cbn [List.filter].
    rewrite (no_char_is_a_field "name") by (cbn; auto).
    discriminate.
  - unfold check_recipe, set_difference; cbn [py_iter bind].
    destruct (forallb hashable l); [|discriminate].
    destruct (List.filter _ required_recipe_fields); discriminate.
  - eauto.
Qed.

(** What POST does with a body whose title is a free non-empty string and
    whose recipe passes the checks. *)
Lemma create_drink_accepts (payload : json) (d : dict) (s : string)
  (v : json) (t : table) :
  dict_get d "title" = Some (JStr s) -> s <> "" ->
  dict_get d "recipe" = Some v -> check_recipe v = Ok tt ->
  title_taken s None t = false ->
  dispatch (create_drink payload (JObj d)) t
  = ({| status := 200;
        body := JSON (JObj [("success", JBool true);
                            ("drinks",
                             JArr [JObj [("id", JNum (next_id t));
                                         ("title", JStr s);
                                         ("recipe", JArr [v])]])]) |},
     {| rows := <[next_id t := Row s (json_dumps (JArr [v]))]> (rows t);
        next_id := next_id t + 1 |}).
Proof.
  intros Ht Hs Hr Hck Hfree.
  destruct (check_recipe_ok_object _ _ Hck) as (ing & ->).
  assert (Hing : truthy (JObj ing) = true).
  { rewrite check_recipe_object in Hck.
    destruct (missing_fields ing) eqn:Hmiss; [|discriminate].
    apply missing_fields_nil in Hmiss as (Hn & _).
    exact (truthy_object_with_key _ _ Hn). }
  unfold dispatch, create_drink.
  rewrite create_drink_checks_object, Ht, Hr.
  cbn [default from_option Datatypes.id]; cbv zeta.
  rewrite (truthy_nonempty_string _ Hs), Hing. cbn [negb]. rewrite Hck.
  unfold create_drink_try, bind_db, lift, Drink_insert; cbn.
  rewrite Hfree. reflexivity.
Qed.

(** C9: a PATCH of a stored drink whose body passes the checks and supplies
    a recipe [v] (the title the row is to carry, supplied or kept, being a
    string no other row has) is answered 200 and rewrites the row with
    [json.dumps(v)]: the value as given, which is an object, not a list
    around it.  The same [v] sent as the recipe of a POST with a free
    non-empty title is stored as [json.dumps([v])]. *)
Theorem update_stores_recipe_unwrapped
  (payload : json) (i : Z) (d : dict) (v : json) (s : string) (t : table)
  (r : row) :
  rows t !! i = Some r ->
  dict_get d "recipe" = Some v ->
  update_drink_checks (JObj d) = Ok tt ->
  default (JStr (row_title r)) (dict_get d "title") = JStr s ->
  title_taken s (Some i) t = false ->
  (exists ing : dict, v = JObj ing)
  /\ dispatch (update_drink payload i (JObj d)) t
     = ({| status := 200;
           body := JSON (JObj [("success", JBool true);
                               ("drinks",
                                JArr [JObj [("id", JNum i);
                                            ("title", JStr s);
                                            ("recipe", v)]])]) |},
        {| rows := <[i := Row s (json_dumps v)]> (rows t);
           next_id := next_id t |})
  /\ json_dumps v <> json_dumps (JArr [v])
  /\ (forall (payload0 : json) (d0 : dict) (s0 : string) (t0 : table),
         dict_get d0 "title" = Some (JStr s0) -> s0 <> "" ->
         dict_get d0 "recipe" = Some v ->
         title_taken s0 None t0 = false ->
         dispatch (create_drink payload0 (JObj d0)) t0
         = ({| status := 200;
               body := JSON (JObj [("success", JBool true);
                                   ("drinks",
                                    JArr [JObj [("id", JNum (next_id t0));
                                                ("title", JStr s0);
                                                ("recipe", JArr [v])]])]) |},
            {| rows := <[next_id t0 := Row s0 (json_dumps (JArr [v]))]>
                         (rows t0);
               next_id := next_id t0 + 1 |})).
Proof.
  intros Hi Hv Hchecks Htitle Hfree.
  assert (Hck : check_recipe v = Ok tt).
  { pose proof Hchecks as H. rewrite update_drink_checks_object in H.
    unfold dict_mem in H. rewrite Hv in H.
    cbn [default from_option Datatypes.id] in H. cbv zeta in H.
    destruct (_ && _); [discriminate|].
    destruct (truthy v); cbn in H; [exact H|discriminate]. }
  destruct (check_recipe_ok_object _ _ Hck) as (ing & Hobj).
  split; [eauto|]. split; [|split].
  - unfold dispatch.
    rewrite (update_drink_object _ _ _ _ _ Hi), Hchecks.
    unfold Drink_update, patched, long, id_json.
    cbn [id title recipe]. rewrite Htitle, Hi, Hfree, Hv.
    reflexivity.
  - subst v. discriminate.
  - intros payload0 d0 s0 t0 Ht0 Hs0 Hr0 Hfree0.
    now apply create_drink_accepts.
Qed.

Lemma update_stores_recipe_unwrapped_witness :
  dispatch (update_drink JNull 1 (JObj [("recipe", JObj water)])) menu
  = ({| status := 200;
        body := JSON (JObj [("success", JBool true);
                            ("drinks",
                             JArr [JObj [("id", JNum 1);
                                         ("title", JStr "water");
                                         ("recipe", JObj water)]])]) |},
     {| rows := <[1 := Row "water" (json_dumps (JObj water))]> (rows menu);
        next_id := next_id menu |}).
Proof.
  apply (update_stores_recipe_unwrapped JNull 1 [("recipe", JObj water)]
           (JObj water) "water" menu
           (Row "water" (json_dumps (JArr [JObj water]))));
    reflexivity.
Defined.

(** ** PATCH of an unknown id (C1) *)

(** C1, what the code does: a PATCH that passes validation but names an id
    no row has reaches [abort(404)] inside the [try]; [except Exception]
    catches it and the answer is the 422 envelope.  The table is
    unchanged. *)
Theorem update_unknown_id_example :
  dispatch (update_drink JNull 7 (JObj [("title", JStr "tea")])) menu
  = ({| status := 422;
        body := JSON (JObj [("success", JBool false); ("error", JNum 422);
                            ("message", JStr "unprocessable")]) |}, menu).
Proof. reflexivity. Qed.

(** ** Falsy values (C4) *)

Lemma falsy_item_forallb (ing : dict) (k : string) (v : json) :
  In (k, v) ing -> truthy v = false ->
  forallb (fun kv => truthy (snd kv)) ing = false.
Proof.
  intros Hin Hv. destruct (forallb _ ing) eqn:Hall; [|reflexivity].
  rewrite forallb_forall in Hall. specialize (Hall _ Hin). cbn in Hall.
  congruence.
Qed.

Lemma check_recipe_rejects (ing : dict) (k : string) (v : json) :
  In (k, v) ing -> truthy v = false ->
  exists (prefix : string) (fs : list string),
    In prefix validation_prefixes /\ fs <> []
    /\ Forall (offending_in_recipe ing) fs
    /\ check_recipe (JObj ing) = abort 400 (Some (prefix +:+ join ", " fs)).
Proof.
  intros Hin Hv. rewrite check_recipe_object.
  destruct (missing_fields ing) as [|f fs] eqn:Hmiss.
  - destruct (items_some_falsy _ (falsy_item_forallb _ _ _ Hin Hv))
      as (k' & v' & Hin' & Hv' & ->).
    exists "Missing required recipe field: ", [k'].
    split; [cbn; tauto|]. split; [discriminate|].
    split; [|reflexivity].
    constructor; [|constructor]. right. eauto.
  - exists "Missing required recipe field(s): ", (f :: fs).
    split; [cbn; tauto|]. split; [discriminate|].
    split; [|reflexivity].
    rewrite <- Hmiss. apply Forall_forall. intros g Hg. left.
    apply missing_fields_missing. now apply list_elem_of_In.
Qed.

Lemma dict_get_del_eq (d : dict) (k : string) : dict_get (dict_del d k) k = None.
Proof.
  induction d as [|[k' v'] d IH]; cbn; [reflexivity|].
  destruct (String.eqb k k') eqn:E; [exact IH|]. cbn. now rewrite E.
Qed.

Lemma dict_get_del_ne (d : dict) (k f : string) :
  f <> k -> dict_get (dict_del d k) f = dict_get d f.
Proof.
  intros Hne. induction d as [|[k' v'] d IH]; cbn; [reflexivity|].
  destruct (String.eqb_spec k k') as [<-|Hk]; cbn.
  - destruct (String.eqb_spec f k); [contradiction|exact IH].
  - now rewrite IH.
Qed.

Lemma handle_validation_abort (prefix rest : string) :
  In prefix validation_prefixes ->
  handle_exception (Http (mkHTTPException 400 (prefix +:+ rest)))
  = {| status := 400;
       body := JSON (JObj [("success", JBool false); ("error", JNum 400);
                           ("message", JStr (prefix +:+ rest))]) |}.
Proof.
  intros Hp. cbn in Hp.
  destruct Hp as [<-|[<-|[<-|[<-|[]]]]]; reflexivity.
Qed.

Lemma create_rejects_falsy (payload : json) (d : dict) (t : table) :
  supplies_falsy d ->
  exists r : response,
    dispatch (create_drink payload (JObj d)) t = (r, t)
    /\ rejects_naming false d r.
Proof.
  intros Hbad. unfold dispatch, create_drink.
  rewrite create_drink_checks_object; cbv zeta.
  destruct (truthy (default JNull (dict_get d "title"))) eqn:Htt;
    cbn [negb].
  2:{ eexists; split; [reflexivity|].
      exists "Missing required field: ", ["title"].
      split; [cbn; tauto|]. split; [discriminate|]. split; [|reflexivity].
      constructor; [|constructor]. left. split; [cbn; tauto|].
      split; [exact Htt|discriminate]. }
  destruct (truthy (default JNull (dict_get d "recipe"))) eqn:Htr;
    cbn [negb].
  2:{ eexists; split; [reflexivity|].
      exists "Missing required field: ", ["recipe"].
      split; [cbn; tauto|]. split; [discriminate|]. split; [|reflexivity].
      constructor; [|constructor]. left. split; [cbn; tauto|].
      split; [exact Htr|discriminate]. }
  destruct Hbad as [(f & v & Hf & Hget & Hv)|(ing & k & v & Hget & Hin & Hv)].
  { destruct Hf as [<-|[<-|[]]]; rewrite Hget in *; cbn in *; congruence. }
  rewrite Hget; cbn [default from_option Datatypes.id].
  destruct (check_recipe_rejects _ _ _ Hin Hv)
    as (prefix & fs & Hp & Hne & Hall & ->).
  eexists; split;
    [unfold abort; cbv beta iota;
     now rewrite (handle_validation_abort _ _ Hp)|].
  exists prefix, fs. split; [exact Hp|]. split; [exact Hne|].
  split; [|reflexivity].
  eapply Forall_impl; [exact Hall|]. intros g Hg. right. eauto.
Qed.

Lemma update_rejects_falsy (payload : json) (i : Z) (d : dict) (t : table) :
  supplies_falsy d ->
  exists r : response,
    dispatch (update_drink payload i (JObj d)) t = (r, t)
    /\ rejects_naming true d r.
Proof.
  intros Hbad. unfold dispatch, update_drink.
  rewrite update_drink_checks_object; cbv zeta.
  destruct (dict_mem "title" d
            && negb (truthy (default JNull (dict_get d "title")))) eqn:Ht.
  { apply andb_true_iff in Ht as [Hmem Hv%negb_true_iff].
    eexists; split; [reflexivity|].
    exists "A value is required for field: ", ["title"].
    split; [cbn; tauto|]. split; [discriminate|]. split; [|reflexivity].
    constructor; [|constructor]. left. split; [cbn; tauto|]. auto. }
  destruct (dict_mem "recipe" d
            && negb (truthy (default JNull (dict_get d "recipe")))) eqn:Hr.
  { apply andb_true_iff in Hr as [Hmem Hv%negb_true_iff].
    eexists; split; [reflexivity|].
    exists "A value is required for field: ", ["recipe"].
    split; [cbn; tauto|]. split; [discriminate|]. split; [|reflexivity].
    constructor; [|constructor]. left. split; [cbn; tauto|]. auto. }
  destruct Hbad as [(f & v & Hf & Hget & Hv)|(ing & k & v & Hget & Hin & Hv)].
  { unfold dict_mem in Ht, Hr.
    destruct Hf as [<-|[<-|[]]]; rewrite Hget in *; cbn in *;
      rewrite Hv in *; discriminate. }
  unfold dict_mem. rewrite Hget; cbn [default from_option Datatypes.id].
  destruct (check_recipe_rejects _ _ _ Hin Hv)
    as (prefix & fs & Hp & Hne & Hall & ->).
  eexists; split;
    [unfold abort; cbv beta iota;
     now rewrite (handle_validation_abort _ _ Hp)|].
  exists prefix, fs. split; [exact Hp|]. split; [exact Hne|].
  split; [|reflexivity].
  eapply Forall_impl; [exact Hall|]. intros g Hg. right. eauto.
Qed.

Lemma create_falsy_as_missing (payload : json) (d : dict) (f : string)
  (v : json) (t : table) :
  In f ["title"; "recipe"] -> dict_get d f = Some v -> truthy v = false ->
  create_drink payload (JObj d) t
  = create_drink payload (JObj (dict_del d f)) t.
Proof.
  intros Hf Hget Hv. unfold create_drink.
  rewrite !create_drink_checks_object; cbv zeta.
  destruct Hf as [<-|[<-|[]]].
  - rewrite dict_get_del_eq, Hget; cbn. now rewrite Hv.
  - rewrite dict_get_del_eq, dict_get_del_ne, Hget by discriminate; cbn.
    rewrite Hv; cbn.
    destruct (truthy (default JNull (dict_get d "title"))); reflexivity.
Qed.

(** C4, as the code has it: an object body that supplies a falsy value, as
    [title] or [recipe] or as the value of a key of the recipe object, is
    answered 400 by POST /drinks and by PATCH /drinks/{id} alike, the table
    unchanged, the message one of the checks' texts followed by offending
    field names (for PATCH a top-level field offends only when supplied).
    For POST a falsy [title] or [recipe] gets the very outcome of the body
    without that field. *)
Theorem falsy_value_is_rejected
  (payload : json) (i : Z) (d : dict) (t : table) :
  supplies_falsy d ->
  (exists r : response,
      dispatch (create_drink payload (JObj d)) t = (r, t)
      /\ rejects_naming false d r)
  /\ (exists r : response,
         dispatch (update_drink payload i (JObj d)) t = (r, t)
         /\ rejects_naming true d r)
  /\ (forall (f : string) (v : json),
         In f ["title"; "recipe"] -> dict_get d f = Some v ->
         truthy v = false ->
         create_drink payload (JObj d) t
         = create_drink payload (JObj (dict_del d f)) t).
Proof.
  intros Hbad. split; [|split].
  - now apply create_rejects_falsy.
  - now apply update_rejects_falsy.
  - intros f v. apply create_falsy_as_missing.
Qed.

Lemma falsy_value_is_rejected_witness :
  exists r : response,
    dispatch
      (create_drink JNull
         (JObj [("title", JStr "tea");
                ("recipe", JObj [("name", JStr "tea"); ("color", JStr "green");
                                 ("parts", JNum 0)])]))
      menu = (r, menu)
    /\ rejects_naming false
         [("title", JStr "tea");
          ("recipe", JObj [("name", JStr "tea"); ("color", JStr "green");
                           ("parts", JNum 0)])] r.
Proof.
  apply (falsy_value_is_rejected JNull 1
           [("title", JStr "tea");
            ("recipe", JObj [("name", JStr "tea"); ("color", JStr "green");
                             ("parts", JNum 0)])] menu).
  right.
  exists [("name", JStr "tea"); ("color", JStr "green"); ("parts", JNum 0)],
    "parts", (JNum 0).
  split; [reflexivity|]. split; [cbn; tauto|reflexivity].
Defined.

(** C4, where the claim as worded fails: on PATCH an empty-string title is
    rejected with a 400 while the same body without the title is accepted
    with a 200; and on POST an ingredient with [parts] equal to zero and one
    without [parts] are both rejected with a 400 naming [parts], in
    different words. *)
Lemma falsy_is_not_handled_as_missing :
  dispatch (update_drink JNull 1 (JObj [("title", JStr "")])) menu
  = ({| status := 400;
        body := JSON (JObj [("success", JBool false); ("error", JNum 400);
                            ("message",
                             JStr "A value is required for field: title")])
     |}, menu)
  /\ dispatch (update_drink JNull 1 (JObj [])) menu
     = ({| status := 200;
           body := JSON (JObj [("success", JBool true);
                               ("drinks",
                                JArr [JObj [("id", JNum 1);
                                            ("title", JStr "water");
                                            ("recipe", JArr [JObj water])]])])
        |}, menu)
  /\ fst (dispatch
            (create_drink JNull
               (JObj [("title", JStr "tea");
                      ("recipe", JObj [("name", JStr "tea");
                                       ("color", JStr "green");
                                       ("parts", JNum 0)])])) menu)
     = {| status := 400;
          body := JSON (JObj [("success", JBool false); ("error", JNum 400);
                              ("message",
                               JStr "Missing required recipe field: parts")])
       |}
  /\ fst (dispatch
            (create_drink JNull
               (JObj [("title", JStr "tea");
                      ("recipe", JObj [("name", JStr "tea");
                                       ("color", JStr "green")])])) menu)
     = {| status := 400;
          body := JSON (JObj [("success", JBool false); ("error", JNum 400);
                              ("message",
                               JStr "Missing required recipe field(s): parts")])
       |}.
Proof.
  repeat split; reflexivity.
Qed.

(** * Further properties of the handlers *)

(** ** PATCH of an id that is not stored *)

(** Whatever body passes the checks, a PATCH of an id without a row ends in
    the 422 envelope: the [abort(404)] of line 141 sits inside the [try] and
    is caught by [except Exception].  The table is unchanged. *)
Theorem update_unknown_id_is_422
  (payload body : json) (i : Z) (t : table) :
  rows t !! i = None ->
  update_drink_checks body = Ok tt ->
  dispatch (update_drink payload i body) t
  = ({| status := 422;
        body := JSON (JObj [("success", JBool false); ("error", JNum 422);
                            ("message", JStr "unprocessable")]) |}, t).
Proof.
  intros Hi Hchecks. unfold dispatch, update_drink. rewrite Hchecks.
  unfold update_drink_try. rewrite (one_or_none_None _ _ Hi). reflexivity.
Qed.

Lemma update_unknown_id_is_422_witness :
  dispatch
    (update_drink JNull 9 (JObj [("title", JStr "tea"); ("recipe", JObj water)]))
    menu
  = ({| status := 422;
        body := JSON (JObj [("success", JBool false); ("error", JNum 422);
                            ("message", JStr "unprocessable")]) |}, menu).
Proof.
  apply (update_unknown_id_is_422 JNull
           (JObj [("title", JStr "tea"); ("recipe", JObj water)]) 9 menu);
    reflexivity.
Defined.

(** ** Bodies that are not objects *)

(** POST /drinks with any JSON body that is not an object (a string, a
    number, a list, [true], [null]) fails on [body.get] and is answered
    with the 500 envelope; nothing is stored. *)
Theorem create_non_object_body_is_500
  (payload body : json) (t : table) :
  is_object body = false ->
  dispatch (create_drink payload body) t
  = ({| status := 500;
        body := JSON (JObj [("success", JBool false); ("error", JNum 500);
                            ("message", JStr "internal server error")]) |},
     t).
Proof. destruct body; try discriminate; reflexivity. Qed.

Lemma create_non_object_body_is_500_witness :
  dispatch (create_drink JNull (JArr [JObj [("title", JStr "tea")]])) menu
  = ({| status := 500;
        body := JSON (JObj [("success", JBool false); ("error", JNum 500);
                            ("message", JStr "internal server error")]) |},
     menu).
Proof.
  apply (create_non_object_body_is_500 JNull
           (JArr [JObj [("title", JStr "tea")]]) menu).
  reflexivity.
Defined.

(** ** The recipe as a list *)

Lemma unhashable_element (l : list json) (x : json) :
  In x l -> hashable x = false -> forallb hashable l = false.
Proof.
  intros Hin Hx. destruct (forallb hashable l) eqn:Hall; [|reflexivity].
  rewrite forallb_forall in Hall. rewrite (Hall _ Hin) in Hx. discriminate.
Qed.

Lemma check_recipe_list_of_objects (l : list json) (x : json) :
  In x l -> hashable x = false -> check_recipe (JArr l) = Raise TypeError.
Proof.
  intros Hin Hx. unfold check_recipe, set_difference; cbn [py_iter bind].
  now rewrite (unhashable_element _ _ Hin Hx).
Qed.

(** A recipe sent as a list whose first element is an object or a list
    (the shape the long form returns) is not rejected by the checks:
    hashing the element in [set.difference] raises, and both POST and
    PATCH answer with the 500 envelope, leaving the table unchanged. *)
Theorem recipe_list_is_500
  (payload : json) (i : Z) (d : dict) (l : list json) (x vt : json)
  (t : table) :
  dict_get d "title" = Some vt -> truthy vt = true ->
  dict_get d "recipe" = Some (JArr (x :: l)) ->
  hashable x = false ->
  dispatch (create_drink payload (JObj d)) t
  = ({| status := 500;
        body := JSON (JObj [("success", JBool false); ("error", JNum 500);
                            ("message", JStr "internal server error")]) |},
     t)
  /\ dispatch (update_drink payload i (JObj d)) t
  = ({| status := 500;
        body := JSON (JObj [("success", JBool false); ("error", JNum 500);
                            ("message", JStr "internal server error")]) |},
     t).
Proof.
  intros Ht Htt Hr Hx.
  assert (Hin : In x (x :: l)) by now left.
  split.
  - unfold dispatch, create_drink.
    rewrite create_drink_checks_object, Ht, Hr.
    cbn [default from_option Datatypes.id]; cbv zeta.
    rewrite Htt; cbn [negb truthy].
    now rewrite (check_recipe_list_of_objects _ _ Hin Hx).
  - unfold dispatch, update_drink.
    rewrite update_drink_checks_object. unfold dict_mem. rewrite Ht, Hr.
    cbn [default from_option Datatypes.id]; cbv zeta.
    rewrite Htt; cbn [negb andb truthy].
    now rewrite (check_recipe_list_of_objects _ _ Hin Hx).
Qed.

Lemma recipe_list_is_500_witness :
  dispatch
    (create_drink JNull
       (JObj [("title", JStr "tea"); ("recipe", JArr [JObj water])])) menu
  = ({| status := 500;
        body := JSON (JObj [("success", JBool false); ("error", JNum 500);
                            ("message", JStr "internal server error")]) |},
     menu).
Proof.
  apply (recipe_list_is_500 JNull 1
           [("title", JStr "tea"); ("recipe", JArr [JObj water])]
           [] (JObj water) (JStr "tea") menu);
    reflexivity.
Defined.

(** ** Which recipes pass *)

(** The recipe checks let a value through exactly when it is an object
    that has the keys name, color and parts and whose every value, those
    of other keys included, is truthy. *)
Theorem check_recipe_accepts (v : json) :
  check_recipe v = Ok tt
  <-> exists ing : dict,
      v = JObj ing
      /\ dict_mem "name" ing = true /\ dict_mem "color" ing = true
      /\ dict_mem "parts" ing = true
      /\ forallb (fun kv => truthy (snd kv)) ing = true.
Proof.
  split.
  - intros Hok. destruct (check_recipe_ok_object _ _ Hok) as (ing & ->).
    exists ing. split; [reflexivity|].
    rewrite check_recipe_object in Hok.
    destruct (missing_fields ing) as [|f fs] eqn:Hmiss; [|discriminate].
    apply missing_fields_nil in Hmiss as (Hn & Hc & Hp).
    repeat (split; [assumption|]).
    destruct (forallb _ ing) eqn:Hall; [reflexivity|].
    destruct (items_some_falsy _ Hall) as (k & w & _ & _ & Hrun).
    rewrite Hrun in Hok. discriminate.
  - intros (ing & -> & Hn & Hc & Hp & Hall).
    now apply check_recipe_valid.
Qed.

(** ** Every answer is an envelope *)

Create HintDb outcomes.

Section Outcomes.

Lemma expected_bind {A B} (r : result A) (k : A -> result B) :
  expected_result r -> (forall a, expected_result (k a)) ->
  expected_result (bind r k).
Proof. destruct r; cbn; auto. Qed.

Lemma expected_for_in {A S} (xs : list A) (f : A -> S -> result S) (s : S) :
  (forall x s', expected_result (f x s')) ->
  expected_result (for_in xs f s).
Proof.
  intros Hf. revert s.
  induction xs as [|x xs IH]; intros s; cbn; [exact I|].
  apply expected_bind; auto.
Qed.

Lemma expected_comprehension {A B} (f : A -> result B) (xs : list A) :
  (forall x, expected_result (f x)) ->
  expected_result (comprehension f xs).
Proof.
  intros Hf. induction xs as [|x xs IH]; cbn; [exact I|].
  apply expected_bind; [auto|]. intros y.
  apply expected_bind; [exact IH|]. intros ys. exact I.
Qed.

Lemma expected_abort_400 {A} (m : option string) :
  expected_result (@abort A 400 m).
Proof. reflexivity. Qed.

Lemma expected_py_get (v : json) (k : string) : expected_result (py_get v k).
Proof. destruct v; cbn; auto. Qed.

Lemma expected_py_contains (k : string) (v : json) :
  expected_result (py_contains k v).
Proof. destruct v; cbn; auto. Qed.

Lemma expected_py_getitem (v : json) (k : string) :
  expected_result (py_getitem v k).
Proof. destruct v; cbn; auto. destruct (dict_get d k); cbn; auto. Qed.

Lemma expected_py_items (v : json) : expected_result (py_items v).
Proof. destruct v; cbn; auto. Qed.

Lemma expected_py_iter (v : json) : expected_result (py_iter v).
Proof. destruct v; cbn; auto. Qed.

Lemma expected_set_difference (req : list string) (v : json) :
  expected_result (set_difference req v).
Proof.
  unfold set_difference. apply expected_bind; [apply expected_py_iter|].
  intros elems. destruct (forallb hashable elems); cbn; auto.
Qed.

Lemma expected_item_check (kv : string * json) (u : unit) :
  expected_result (item_check kv u).
Proof. unfold item_check. destruct (negb _); cbn; auto. Qed.

Hint Resolve expected_bind expected_for_in expected_comprehension
  expected_abort_400 expected_py_get expected_py_contains
  expected_py_getitem expected_py_items expected_py_iter
  expected_set_difference expected_item_check : outcomes.

Lemma expected_check_recipe (v : json) : expected_result (check_recipe v).
Proof.
  unfold check_recipe. apply expected_bind; [auto with outcomes|].
  intros missing. apply expected_bind.
  - destruct missing; [exact I|apply expected_abort_400].
  - intros _. apply expected_bind; auto with outcomes.
Qed.

Lemma expected_create_drink_checks (body : json) :
  expected_result (create_drink_checks body).
Proof.
  unfold create_drink_checks. apply expected_bind.
  - apply expected_for_in. intros field nd.
    apply expected_bind; [auto with outcomes|].
    intros v. destruct (negb (truthy v)); [apply expected_abort_400|exact I].
  - intros nd. apply expected_bind; [auto with outcomes|].
    intros recipe. apply expected_bind; [apply expected_check_recipe|].
    intros _. exact I.
Qed.

Lemma expected_update_drink_checks (body : json) :
  expected_result (update_drink_checks body).
Proof.
  unfold update_drink_checks. apply expected_bind.
  - apply expected_for_in. intros field u.
    apply expected_bind; [auto with outcomes|].
    intros [|]; [|exact I].
    apply expected_bind; [auto with outcomes|].
    intros v. destruct (negb (truthy v)); [apply expected_abort_400|exact I].
  - intros _. apply expected_bind; [auto with outcomes|].
    intros [|]; [|exact I].
    apply expected_bind; [auto with outcomes|].
    intros recipe. apply expected_check_recipe.
Qed.

Lemma expected_short (dk : Drink) : expected_result (short dk).
Proof.
  unfold short. apply expected_bind; [auto with outcomes|].
  intros elems. apply expected_bind.
  - apply expected_comprehension. intros x. unfold short_ingredient.
    apply expected_bind; [auto with outcomes|]. intros n.
    apply expected_bind; [auto with outcomes|]. intros c. exact I.
  - intros sr. exact I.
Qed.

Variables (payload body : json) (drink_id : Z) (t : table).

Lemma get_drinks_outcome : view_outcome (fst (get_drinks t)).
Proof.
  unfold get_drinks; cbn [fst].
  pose proof (expected_comprehension short (query_all t) expected_short)
    as Hshort.
  destruct (comprehension short (query_all t)) as [drinks|e]; cbn;
    [|exact Hshort].
  destruct (Z.of_nat (length drinks) =? 0); cbn; eauto.
Qed.

Lemma get_drinks_detail_outcome :
  view_outcome (fst (get_drinks_detail payload t)).
Proof.
  unfold get_drinks_detail; cbn [fst].
  destruct (Z.of_nat (length _) =? 0); cbn; eauto.
Qed.

Lemma create_drink_outcome :
  view_outcome (fst (create_drink payload body t))
  /\ (forall e t', create_drink payload body t = (Raise e, t') -> t' = t).
Proof.
  unfold create_drink.
  pose proof (expected_create_drink_checks body) as Hchecks.
  destruct (create_drink_checks body) as [nd|e]; cbn [fst].
  2:{ split; [exact Hchecks|]. now intros e' t' [= _ <-]. }
  unfold create_drink_try, bind_db, lift, ret.
  destruct (py_getitem (JObj nd) "title") as [vt|e];
    [|split; [now destruct e|destruct e; now intros e' t' [= _ <-]]].
  destruct (py_getitem (JObj nd) "recipe") as [vr|e];
    [|split; [now destruct e|destruct e; now intros e' t' [= _ <-]]].
  unfold Drink_insert; cbn [title recipe].
  destruct vt as [| | |s| |];
    try (split; [reflexivity|now intros e' t' [= _ <-]]).
  destruct (title_taken s None t).
  - split; [reflexivity|now intros e' t' [= _ <-]].
  - split; [cbn; eauto|discriminate].
Qed.

Lemma update_drink_outcome :
  view_outcome (fst (update_drink payload drink_id body t))
  /\ (forall e t',
         update_drink payload drink_id body t = (Raise e, t') -> t' = t).
Proof.
  unfold update_drink.
  pose proof (expected_update_drink_checks body) as Hchecks.
  destruct (update_drink_checks body) as [u|e]; cbn [fst].
  2:{ split; [exact Hchecks|]. now intros e' t' [= _ <-]. }
  unfold update_drink_try.
  destruct (one_or_none drink_id t) as [drink|];
    [|split; [reflexivity|now intros e' t' [= _ <-]]].
  unfold bind_db, lift, ret.
  match goal with
  | |- context [bind (py_contains "title" body) ?k] =>
      destruct (bind (py_contains "title" body) k) as [d1|e]
  end; [|split; [reflexivity|now intros e' t' [= _ <-]]].
  match goal with
  | |- context [bind (py_contains "recipe" body) ?k] =>
      destruct (bind (py_contains "recipe" body) k) as [d2|e]
  end; [|split; [reflexivity|now intros e' t' [= _ <-]]].
  destruct (Drink_update d2 t) as [[u'|e] t''] eqn:Hup.
  - split; [cbn; eauto|discriminate].
  - apply Drink_update_raise in Hup as ->.
    split; [reflexivity|now intros e' t' [= _ <-]].
Qed.

Lemma delete_drink_outcome :
  view_outcome (fst (delete_drink payload drink_id t))
  /\ (forall e t',
         delete_drink payload drink_id t = (Raise e, t') -> t' = t).
Proof.
  unfold delete_drink, one_or_none, Drink_delete.
  destruct (rows t !! drink_id) as [r|] eqn:Hi; cbn.
  - rewrite Hi. split; [cbn; eauto|discriminate].
  - split; [reflexivity|now intros e' t' [= _ <-]].
Qed.

End Outcomes.

Lemma envelope_of_outcome (view : db response) (t : table) :
  view_outcome (fst (view t)) -> is_envelope (fst (dispatch view t)).
Proof.
  unfold dispatch. destruct (view t) as [[resp|e] t']; cbn [fst].
  - intros Hok. left. exact Hok.
  - intros He. right. destruct e as [[c descr]| | | | |];
      try (cbn; split; [tauto|eauto]).
    cbn in He. unfold handle_exception, errorhandler; cbn [code].
    destruct (Z.eqb_spec c 422) as [->|?];
      [cbn; split; [tauto|eauto]|].
    destruct (Z.eqb_spec c 404) as [->|?];
      [cbn; split; [tauto|eauto]|].
    destruct (Z.eqb_spec c 400) as [->|?];
      [cbn; split; [tauto|eauto]|].
    cbn in He. discriminate.
Qed.

(** Whatever the table, the body and the id, each of the five routes
    answers with HTTP 200 and a JSON object starting with [success: true],
    or with HTTP 400, 404, 422 or 500 and the error envelope
    [{success: false, error: <that status>, message: <string>}]. *)
Theorem every_answer_is_an_envelope
  (payload body : json) (drink_id : Z) (t : table) :
  is_envelope (fst (dispatch get_drinks t))
  /\ is_envelope (fst (dispatch (get_drinks_detail payload) t))
  /\ is_envelope (fst (dispatch (create_drink payload body) t))
  /\ is_envelope (fst (dispatch (update_drink payload drink_id body) t))
  /\ is_envelope (fst (dispatch (delete_drink payload drink_id) t)).
Proof.
  repeat split; apply envelope_of_outcome.
  - apply get_drinks_outcome.
  - apply get_drinks_detail_outcome.
  - apply create_drink_outcome.
  - apply update_drink_outcome.
  - apply delete_drink_outcome.
Qed.

Lemma dispatch_not_200 (view : db response) (t : table) :
  view_outcome (fst (view t)) ->
  status (fst (dispatch view t)) <> 200 ->
  exists e, fst (view t) = Raise e.
Proof.
  unfold dispatch. destruct (view t) as [[resp|e] t']; cbn [fst]; [|eauto].
  intros [Hst _] Hne. contradiction.
Qed.

(** A request that is not answered 200 leaves the table exactly as it was,
    for each of the three writing routes; the two listings never change
    it. *)
Theorem only_a_200_changes_the_table
  (payload body : json) (drink_id : Z) (t : table) :
  snd (dispatch get_drinks t) = t
  /\ snd (dispatch (get_drinks_detail payload) t) = t
  /\ (status (fst (dispatch (create_drink payload body) t)) <> 200 ->
      snd (dispatch (create_drink payload body) t) = t)
  /\ (status (fst (dispatch (update_drink payload drink_id body) t)) <> 200 ->
      snd (dispatch (update_drink payload drink_id body) t) = t)
  /\ (status (fst (dispatch (delete_drink payload drink_id) t)) <> 200 ->
      snd (dispatch (delete_drink payload drink_id) t) = t).
Proof.
  split; [|split; [|split; [|split]]].
  - unfold dispatch, get_drinks. now destruct (bind _ _).
  - unfold dispatch, get_drinks_detail.
    now destruct (Z.of_nat (length _) =? 0).
  - intros Hne.
    destruct (create_drink_outcome payload body t) as [Hout Hraise].
    destruct (dispatch_not_200 _ _ Hout Hne) as [e He].
    unfold dispatch.
    destruct (create_drink payload body t) as [[r|e'] t'] eqn:Hrun;
      [discriminate|]. cbn. eapply Hraise; reflexivity.
  - intros Hne.
    destruct (update_drink_outcome payload body drink_id t) as [Hout Hraise].
    destruct (dispatch_not_200 _ _ Hout Hne) as [e He].
    unfold dispatch.
    destruct (update_drink payload drink_id body t) as [[r|e'] t'] eqn:Hrun;
      [discriminate|]. cbn. eapply Hraise; reflexivity.
  - intros Hne.
    destruct (delete_drink_outcome payload drink_id t) as [Hout Hraise].
    destruct (dispatch_not_200 _ _ Hout Hne) as [e He].
    unfold dispatch.
    destruct (delete_drink payload drink_id t) as [[r|e'] t'] eqn:Hrun;
      [discriminate|]. cbn. eapply Hraise; reflexivity.
Qed.

(** ** The detailed listing *)

#[local] Instance id_le_total : Total id_le.
Proof. intros a b. unfold id_le. lia. Qed.

Lemma query_all_ids (t : table) :
  Sorted Z.le (map fst (merge_sort id_le (map_to_list (rows t)))).
Proof.
  pose proof (Sorted_merge_sort id_le (map_to_list (rows t))) as Hs.
  induction Hs as [|kv l Hs IH Hhd]; cbn; constructor; [exact IH|].
  destruct Hhd as [|kv' l' Hle]; cbn; constructor. exact Hle.
Qed.

Lemma query_all_lists_row (t : table) (i : Z) (r : row) :
  In (Drink_of_row i r) (query_all t) <-> rows t !! i = Some r.
Proof.
  unfold query_all. rewrite in_map_iff. split.
  - intros ([j r'] & Heq & Hin). cbn in Heq.
    apply list_elem_of_In in Hin.
    rewrite merge_sort_Permutation in Hin.
    apply elem_of_map_to_list in Hin.
    destruct r, r'. unfold Drink_of_row in Heq; cbn in Heq.
    injection Heq as -> -> ->. exact Hin.
  - intros Hi. exists (i, r). split; [reflexivity|].
    apply list_elem_of_In. rewrite merge_sort_Permutation.
    now apply elem_of_map_to_list.
Qed.

Lemma query_all_length (t : table) : length (query_all t) = size (rows t).
Proof.
  unfold query_all. rewrite length_map, merge_sort_Permutation.
  apply length_map_to_list.
Qed.

Lemma detail_listing_rows (payload : json) (t : table) :
  rows t <> ∅ ->
  exists ds : list Drink,
    dispatch (get_drinks_detail payload) t
    = ({| status := 200;
          body := JSON (JObj [("success", JBool true);
                              ("drinks", JArr (map long ds))]) |}, t)
    /\ length ds = size (rows t)
    /\ (forall i r, In (Drink_of_row i r) ds <-> rows t !! i = Some r)
    /\ exists ids : list Z,
        map id ds = map Some ids /\ Sorted Z.le ids.
Proof.
  intros Hne.
  assert (Hlen : (Z.of_nat (length (map long (query_all t))) =? 0) = false).
  { rewrite length_map, query_all_length.
    apply Z.eqb_neq. intros H0. apply Hne, map_size_empty_iff. lia. }
  unfold dispatch, get_drinks_detail; cbv zeta. rewrite Hlen.
  exists (query_all t). split; [reflexivity|].
  split; [apply query_all_length|].
  split; [apply query_all_lists_row|].
  exists (map fst (merge_sort id_le (map_to_list (rows t)))).
  split; [|apply query_all_ids].
  unfold query_all. rewrite !map_map. reflexivity.
Qed.

(** GET /drinks-detail answers 404 exactly when the table is empty.
    Otherwise it answers 200 with one long form per row and no other
    entry, in ascending order of id, and leaves the table as it is. *)
Theorem detail_listing
  (payload : json) (t : table) :
  (rows t = ∅ <->
   status (fst (dispatch (get_drinks_detail payload) t)) = 404)
  /\ (rows t <> ∅ ->
      exists ds : list Drink,
        dispatch (get_drinks_detail payload) t
        = ({| status := 200;
              body := JSON (JObj [("success", JBool true);
                                  ("drinks", JArr (map long ds))]) |}, t)
        /\ length ds = size (rows t)
        /\ (forall i r, In (Drink_of_row i r) ds <-> rows t !! i = Some r)
        /\ exists ids : list Z,
            map id ds = map Some ids /\ Sorted Z.le ids).
Proof.
  split; [|apply detail_listing_rows].
  destruct (decide (rows t = ∅)) as [He|Hne].
  - split; [intros _|auto].
    unfold dispatch, get_drinks_detail, query_all; cbv zeta.
    rewrite He, map_to_list_empty. reflexivity.
  - split; [contradiction|].
    destruct (detail_listing_rows payload t Hne) as (ds & -> & _).
    discriminate.
Qed.

Lemma detail_listing_witness :
  exists ds : list Drink,
    dispatch (get_drinks_detail JNull) menu
    = ({| status := 200;
          body := JSON (JObj [("success", JBool true);
                              ("drinks", JArr (map long ds))]) |}, menu)
    /\ length ds = size (rows menu)
    /\ (forall i r, In (Drink_of_row i r) ds <-> rows menu !! i = Some r)
    /\ exists ids : list Z,
        map id ds = map Some ids /\ Sorted Z.le ids.
Proof.
  apply (detail_listing JNull menu).
  intros Hempty.
  apply (f_equal (fun m : gmap Z row => m !! 1)) in Hempty.
  discriminate Hempty.
Defined.

(** ** POST, then the listing *)

(** The drink a successful POST returns is an entry of the listing the
    next GET /drinks-detail returns, field for field. *)
Theorem created_drink_is_listed
  (payload payload' body : json) (t t1 : table) (r : response) :
  create_drink payload body t = (Ok r, t1) ->
  exists (drink : json) (drinks : list json),
    r = {| status := 200;
           body := JSON (JObj [("success", JBool true);
                               ("drinks", JArr [drink])]) |}
    /\ dispatch (get_drinks_detail payload') t1
       = ({| status := 200;
             body := JSON (JObj [("success", JBool true);
                                 ("drinks", JArr drinks)]) |}, t1)
    /\ In drink drinks.
Proof.
  intros Hrun.
  assert (Hshape : exists (s : string) (rc : text),
             r = jsonify [("success", JBool true);
                          ("drinks",
                           JArr [long (Drink_of_row (next_id t) (Row s rc))])]
             /\ rows t1 !! next_id t = Some (Row s rc)).
  { revert Hrun. unfold create_drink.
    destruct (create_drink_checks body) as [nd|e]; [|discriminate].
    unfold create_drink_try, bind_db, lift, ret.
    destruct (py_getitem (JObj nd) "title") as [vt|e];
      [|destruct e; discriminate].
    destruct (py_getitem (JObj nd) "recipe") as [vr|e];
      [|destruct e; discriminate].
    unfold Drink_insert; cbn [title recipe].
    destruct vt as [| | |s| |]; try discriminate.
    destruct (title_taken s None t); [discriminate|].
    intros [= <- <-]. exists s, (json_dumps (JArr [vr])).
    split; [reflexivity|]. cbn [rows]. apply lookup_insert_eq. }
  destruct Hshape as (s & rc & -> & Hrow).
  assert (Hne : rows t1 <> ∅).
  { intros He. rewrite He, lookup_empty in Hrow. discriminate. }
  destruct (detail_listing_rows payload' t1 Hne)
    as (ds & Hresp & _ & Hin & _).
  exists (long (Drink_of_row (next_id t) (Row s rc))), (map long ds).
  split; [reflexivity|]. split; [exact Hresp|].
  apply in_map, Hin, Hrow.
Qed.

Lemma created_drink_is_listed_witness :
  exists (drink : json) (drinks : list json),
    {| status := 200;
       body := JSON (JObj [("success", JBool true);
                           ("drinks",
                            JArr [JObj [("id", JNum 2); ("title", JStr "tea");
                                        ("recipe", JArr [JObj water])]])]) |}
    = {| status := 200;
         body := JSON (JObj [("success", JBool true);
                             ("drinks", JArr [drink])]) |}
    /\ dispatch (get_drinks_detail JNull)
         {| rows := <[2 := Row "tea" (json_dumps (JArr [JObj water]))]>
                      (rows menu);
            next_id := 3 |}
       = ({| status := 200;
             body := JSON (JObj [("success", JBool true);
                                 ("drinks", JArr drinks)]) |},
          {| rows := <[2 := Row "tea" (json_dumps (JArr [JObj water]))]>
                       (rows menu);
             next_id := 3 |})
    /\ In drink drinks.
Proof.
  apply (created_drink_is_listed JNull JNull
           (JObj [("title", JStr "tea"); ("recipe", JObj water)]) menu).
  reflexivity.
Defined.

(** ** A missing top-level field on POST *)

(** POST /drinks checks [title] first and [recipe] second: without a
    truthy title the answer is the 400 naming [title] whatever the recipe
    is; with a truthy title and no truthy recipe it is the 400 naming
    [recipe].  Nothing is stored. *)
Theorem create_missing_field (payload : json) (d : dict) (t : table) :
  (truthy (default JNull (dict_get d "title")) = false ->
   dispatch (create_drink payload (JObj d)) t
   = ({| status := 400;
         body := JSON (JObj [("success", JBool false); ("error", JNum 400);
                             ("message",
                              JStr "Missing required field: title")]) |}, t))
  /\ (truthy (default JNull (dict_get d "title")) = true ->
      truthy (default JNull (dict_get d "recipe")) = false ->
      dispatch (create_drink payload (JObj d)) t
      = ({| status := 400;
            body := JSON (JObj [("success", JBool false); ("error", JNum 400);
                                ("message",
                                 JStr "Missing required field: recipe")]) |},
         t)).
Proof.
  split.
  - intros Ht. unfold dispatch, create_drink.
    rewrite create_drink_checks_object; cbv zeta. now rewrite Ht.
  - intros Ht Hr. unfold dispatch, create_drink.
    rewrite create_drink_checks_object; cbv zeta. now rewrite Ht, Hr.
Qed.

(** ** PATCH twice *)

Lemma title_taken_same_row (s : string) (i n n' : Z) (r : row)
  (m : gmap Z row) :
  title_taken s (Some i) {| rows := <[i := r]> m; next_id := n |}
  = title_taken s (Some i) {| rows := m; next_id := n' |}.
Proof.
  unfold title_taken; cbn [rows].
  apply eq_true_iff_eq. rewrite !existsb_exists.
  split; intros ([j r'] & Hin & Hok); exists (j, r'); (split; [|exact Hok]);
    cbn in Hok; apply andb_true_iff in Hok as [Hj _];
    apply negb_true_iff, bool_decide_eq_false in Hj;
    apply list_elem_of_In, elem_of_map_to_list;
    apply list_elem_of_In, elem_of_map_to_list in Hin.
  - rewrite lookup_insert_ne in Hin; [exact Hin|congruence].
  - rewrite lookup_insert_ne; [exact Hin|congruence].
Qed.

(** A PATCH with an object body that succeeded can be sent again: the
    second answer is the first one and the table does not change any
    more. *)
Theorem update_drink_idempotent
  (payload : json) (i : Z) (d : dict) (t t1 : table) (resp : response) :
  update_drink payload i (JObj d) t = (Ok resp, t1) ->
  update_drink payload i (JObj d) t1 = (Ok resp, t1).
Proof.
  intros Hrun.
  destruct (rows t !! i) as [r|] eqn:Hi.
  2:{ revert Hrun. unfold update_drink, update_drink_try.
      rewrite (one_or_none_None _ _ Hi).
      destruct (update_drink_checks (JObj d)); discriminate. }
  pose proof Hrun as Hrun0.
  rewrite (update_drink_object _ _ _ _ _ Hi) in Hrun.
  destruct (update_drink_checks (JObj d)) as [[]|e] eqn:Hchecks;
    [|discriminate].
  destruct (Drink_update (patched i r d) t) as [[u|e] t'] eqn:Hup;
    [|discriminate].
  injection Hrun as <- <-.
  pose proof Hup as Hup0.
  destruct (Drink_update_ok _ _ _ _ Hup) as (i' & s & Hid & Ht & _ & ->).
  cbn in Hid. injection Hid as <-.
  set (r1 := Row s (recipe (patched i r d))).
  assert (Hsame : patched i r1 d = patched i r d).
  { unfold patched in Ht |- *; cbn in Ht |- *.
    destruct (dict_get d "title") as [vt|], (dict_get d "recipe") as [vr|];
      cbn in Ht |- *; congruence. }
  assert (Hi1 : rows {| rows := <[i := r1]> (rows t); next_id := next_id t |}
                !! i = Some r1) by apply lookup_insert_eq.
  rewrite (update_drink_object _ _ _ _ _ Hi1), Hchecks, Hsame.
  unfold Drink_update in Hup0 |- *.
  change (id (patched i r d)) with (Some i) in Hup0 |- *.
  rewrite Ht in Hup0 |- *. cbv beta iota in Hup0 |- *.
  rewrite Hi1. rewrite Hi in Hup0.
  rewrite (title_taken_same_row s i (next_id t) (next_id t) r1 (rows t)).
  replace {| rows := rows t; next_id := next_id t |} with t by now destruct t.
  destruct (title_taken s (Some i) t); [discriminate|].
  cbn [rows next_id]. rewrite insert_insert_eq. reflexivity.
Qed.

Lemma update_drink_idempotent_witness :
  update_drink JNull 1 (JObj [("title", JStr "tap water")])
    {| rows := <[1 := Row "tap water" (json_dumps (JArr [JObj water]))]>
                 (rows menu);
       next_id := 2 |}
  = (Ok (jsonify [("success", JBool true);
                  ("drinks",
                   JArr [JObj [("id", JNum 1); ("title", JStr "tap water");
                               ("recipe", JArr [JObj water])]])]),
     {| rows := <[1 := Row "tap water" (json_dumps (JArr [JObj water]))]>
                  (rows menu);
        next_id := 2 |}).
Proof.
  apply (update_drink_idempotent JNull 1 [("title", JStr "tap water")] menu).
  reflexivity.
Defined.
